(** * Surgery risk management: scoring engine, patient store, records query

    A shallow embedding of [app.py].  Python integers are [Z]; the body
    mass index is a Python float that the program only ever compares with
    the constants 18.5, 30 and 35, so it is carried as the rational number
    the float denotes ([Q]; every finite double is a rational and these
    comparisons are exact).  A [dict] with string keys is a [gmap string],
    the session's patient list is a [list] in insertion order, and the
    Streamlit calls that report to the user are collected as [Notice]s. *)

From Stdlib Require Import ZArith QArith Qminmax Qround Lia.
From Stdlib Require DecimalString DecimalZ DecimalPos.
From stdpp Require Import gmap strings list fin_maps sorting.

Open Scope Z_scope.

(** ** Python helpers *)

(** [x < y] on floats, as a boolean. *)
Definition Qltb (x y : Q) : bool :=
  match (x ?= y)%Q with Lt => true | _ => false end.

(** Truth value of a [str] in a condition: the empty string is false. *)
Definition truthy (s : string) : bool :=
  match s with EmptyString => false | String _ _ => true end.

(** [min(a, b)] on floats: [b] when [b < a], otherwise the first argument. *)
Definition py_min (a b : Q) : Q := if Qltb b a then b else a.

Inductive PyError :=
| KeyError (key : string).

(** [d.get(k, dflt)] *)
Definition dict_get (d : gmap string Z) (k : string) (dflt : Z) : Z :=
  default dflt (d !! k).

(** [d[k]] *)
Definition dict_getitem (d : gmap string Z) (k : string) : PyError + Z :=
  match d !! k with
  | Some v => inr v
  | None => inl (KeyError k)
  end.

(** ** The risk engine *)

Module SurgeryRiskCalculator.

Definition surgery_scores : gmap string Z :=
  <["Minor" := 1]> (<["Moderate" := 3]> (<["Major" := 6]> (<["Complex" := 9]> ∅))).

(** Each block of [calculate_risk_score] updates the running [score]. *)

(* # Age factor *)
Definition add_age_factor (age : Z) (score : Z) : Z :=
  if age <? 18 then score + 1
  else if age <? 40 then score + 2
  else if age <? 65 then score + 4
  else score + 7.

(* # BMI factor *)
Definition add_bmi_factor (bmi : Q) (score : Z) : Z :=
  if Qltb bmi (37 # 2) then score + 3
  else if Qltb 30 bmi then score + 4
  else if Qltb 35 bmi then score + 6
  else score.

(* # Comorbidities *)
Definition add_comorbidities (comorbidities : list string) (score : Z) : Z :=
  score + Z.of_nat (length comorbidities) * 2.

(* # Surgery type *)
Definition add_surgery_type (surgery_type : string) (score : Z) : Z :=
  score + dict_get surgery_scores surgery_type 3.

(* # ASA class *)
Definition add_asa_class (asa_class : Z) (score : Z) : Z :=
  score + asa_class * 2.

Definition calculate_risk_score (age : Z) (bmi : Q) (comorbidities : list string)
    (surgery_type : string) (asa_class : Z) : Z :=
  let score := 0 in
  let score := add_age_factor age score in
  let score := add_bmi_factor bmi score in
  let score := add_comorbidities comorbidities score in
  let score := add_surgery_type surgery_type score in
  let score := add_asa_class asa_class score in
  Z.min score 30.

Definition get_risk_category (score : Z) : string * string :=
  if score <=? 8 then ("Low", "🟢")
  else if score <=? 15 then ("Moderate", "🟡")
  else if score <=? 22 then ("High", "🟠")
  else ("Critical", "🔴").

End SurgeryRiskCalculator.

(** What one block adds to the running score. *)
Definition contribution (block : Z → Z) (score : Z) : Z := block score - score.

(** *** The score as the specification words it

    The table of 4.2: "age<18→1; 18≤age<40→2; 40≤age<65→4; age≥65→7",
    "bmi<18.5→3; bmi>35→6 (checked before the >30 branch); 30<bmi≤35→4;
    else→0", "2 × count of distinct comorbidities", "Minor=1, Moderate=3,
    Major=6, Complex=9; unknown type defaults to 3", "2 × asaClass"; and
    "sum of the five contributions above, clamped to a maximum of 30". *)

Definition ageContribution_spec (age : Z) : Z :=
  if age <? 18 then 1 else if age <? 40 then 2 else if age <? 65 then 4 else 7.

Definition bmiContribution_spec (bmi : Q) : Z :=
  if Qltb bmi (37 # 2) then 3
  else if Qltb 35 bmi then 6
  else if Qltb 30 bmi then 4
  else 0.

Definition comorbiditiesContribution_spec (comorbidities : list string) : Z :=
  2 * Z.of_nat (size (list_to_set comorbidities : gset string)).

Definition surgeryContribution_spec (surgeryType : string) : Z :=
  if String.eqb surgeryType "Minor" then 1
  else if String.eqb surgeryType "Moderate" then 3
  else if String.eqb surgeryType "Major" then 6
  else if String.eqb surgeryType "Complex" then 9
  else 3.

Definition asaContribution_spec (asaClass : Z) : Z := 2 * asaClass.

Definition computeScore_spec (age : Z) (bmi : Q) (comorbidities : list string)
    (surgeryType : string) (asaClass : Z) : Z :=
  Z.min (ageContribution_spec age + bmiContribution_spec bmi
         + comorbiditiesContribution_spec comorbidities
         + surgeryContribution_spec surgeryType + asaContribution_spec asaClass) 30.

(** ** Patient records *)

Module Patient.
(** The dict built by [patient_registration]; dates and timestamps are
    day and clock ordinals. *)
Record t := mk {
  id : Z;
  name : string;
  age : Z;
  gender : string;
  height : Z;
  weight : Z;
  bmi : Q;
  surgery_date : Z;
  surgery_type : string;
  surgeon : string;
  asa_class : Z;
  emergency : bool;
  comorbidities : list string;
  allergies : string;
  medications : string;
  notes : string;
  registration_date : Z
}.
End Patient.

Module Form.
(** The values the widgets of the registration form return on one run. *)
Record t := mk {
  name : string;
  age : Z;
  gender : string;
  height : Z;
  weight : Z;
  surgery_date : Z;
  surgery_type : string;
  surgeon : string;
  asa_class : Z;
  emergency : bool;
  comorbidities : list string;
  allergies : string;
  medications : string;
  notes : string;
  submitted : bool
}.
End Form.

(** Messages shown to the user: [st.success] of the registration page and
    the [st.warning] of the pages that need a non-empty session. *)
Inductive Notice :=
| success_registered (name : string) (patient_id : Z)
| warning (msg : string).

Section Registration.

(** [round(weight / ((height/100) ** 2), 2)] in double arithmetic; the
    store operations do not depend on how the floats are rounded. *)
Variable round_bmi : Z → Z → Q.

(** [st.session_state.patients] before the first registration. *)
Definition initial_patients : list Patient.t := [].

Definition patient_registration (patients : list Patient.t) (form : Form.t)
    (now : Z) : list Patient.t * list Notice :=
  if Form.submitted form && truthy (Form.name form) then
    let bmi := round_bmi (Form.weight form) (Form.height form) in
    let patient_id := Z.of_nat (length patients) + 1 in
    let patient := {|
      Patient.id := patient_id;
      Patient.name := Form.name form;
      Patient.age := Form.age form;
      Patient.gender := Form.gender form;
      Patient.height := Form.height form;
      Patient.weight := Form.weight form;
      Patient.bmi := bmi;
      Patient.surgery_date := Form.surgery_date form;
      Patient.surgery_type := Form.surgery_type form;
      Patient.surgeon := Form.surgeon form;
      Patient.asa_class := Form.asa_class form;
      Patient.emergency := Form.emergency form;
      Patient.comorbidities := Form.comorbidities form;
      Patient.allergies := Form.allergies form;
      Patient.medications := Form.medications form;
      Patient.notes := Form.notes form;
      Patient.registration_date := now
    |} in
    (patients ++ [patient], [success_registered (Form.name form) patient_id])
  else (patients, []).

(** The session after a sequence of runs of the registration page, each
    with the form's values and the clock reading of that run. *)
Definition register_all (patients : list Patient.t) (runs : list (Form.t * Z))
    : list Patient.t :=
  fold_left (λ ps run, (patient_registration ps run.1 run.2).1) runs patients.

End Registration.

(** The ids of the session list count up from 1. *)
Definition ids_count_up (patients : list Patient.t) : Prop :=
  Patient.id <$> patients = Z.of_nat <$> seq 1 (length patients).

(** [round(x)] to the nearest integer, a tie going to the even one. *)
Definition round_half_even (x : Q) : Z :=
  let below := Qfloor x in
  match (x - inject_Z below ?= 1 # 2)%Q with
  | Lt => below
  | Gt => below + 1
  | Eq => if Z.even below then below else below + 1
  end.

(** [round(weight / ((height/100) ** 2), 2)] computed on rationals, for
    running the registration on concrete forms: the quotient rounded to
    two decimals.  (The program does the same on doubles.) *)
Definition exact_bmi (weight height : Z) : Q :=
  let bmi :=
    (inject_Z weight / ((inject_Z height / 100) * (inject_Z height / 100)))%Q in
  (inject_Z (round_half_even (bmi * 100)) / 100)%Q.

(** A submitted form whose name was left empty, and two filled-in ones. *)
Definition nameless_form : Form.t :=
  Form.mk "" 30 "Male" 170 70 739000 "Minor" "" 1 false [] "" "" "" true.

Definition form_of_ada : Form.t :=
  Form.mk "Ada" 30 "Female" 170 70 739000 "Minor" "" 1 false [] "" "" "" true.

Definition form_of_bob : Form.t :=
  Form.mk "Bob" 30 "Male" 180 80 739001 "Minor" "" 1 false [] "" "" "" true.

(** The session after Ada and then Bob, both aged 30, have registered. *)
Definition ada_then_bob : list Patient.t :=
  register_all exact_bmi initial_patients [(form_of_ada, 0); (form_of_bob, 1)].

(** ** The assessment page *)

Definition score_of (patient : Patient.t) : Z :=
  SurgeryRiskCalculator.calculate_risk_score
    (Patient.age patient) (Patient.bmi patient) (Patient.comorbidities patient)
    (Patient.surgery_type patient) (Patient.asa_class patient).

(** [min(risk_score * 0.5, 15)] *)
Definition mortality_risk (risk_score : Z) : Q :=
  py_min (inject_Z risk_score * (1 # 2)) 15.

(** The dict [factors] behind the breakdown chart, entries in the order
    they are written; the fourth entry indexes a dict and can raise. *)
Definition factors (patient : Patient.t) : PyError + list (string * Z) :=
  let age_factor := Z.min (Patient.age patient / 10) 7 in
  let bmi_factor :=
    if Qltb 30 (Patient.bmi patient) then 4
    else if Qltb (Patient.bmi patient) (37 # 2) then 3 else 1 in
  let comorbidities := Z.of_nat (length (Patient.comorbidities patient)) * 2 in
  match dict_getitem
          (<["Minor" := 1]> (<["Moderate" := 3]> (<["Major" := 6]> (<["Complex" := 9]> ∅))))
          (Patient.surgery_type patient) with
  | inl err => inl err
  | inr surgery_complexity =>
      let asa := Patient.asa_class patient * 2 in
      inr [("Age Factor", age_factor); ("BMI Factor", bmi_factor);
           ("Comorbidities", comorbidities);
           ("Surgery Complexity", surgery_complexity); ("ASA Class", asa)]
  end.

(** [next(p for p in patients if p['id'] == patient_id)]: the first
    patient with that id; [None] is the generator running dry
    ([StopIteration]). *)
Fixpoint next_with_id (patients : list Patient.t) (patient_id : Z)
    : option Patient.t :=
  match patients with
  | [] => None
  | p :: rest =>
      if Patient.id p =? patient_id then Some p else next_with_id rest patient_id
  end.

(** The recommendations of the assessment page, by risk category. *)
Definition recommendations (risk_category : string) : list string :=
  if String.eqb risk_category "Critical" then
    ["🚨 Consider postponing non-emergency surgery";
     "🏥 ICU bed should be reserved post-operatively";
     "👨‍⚕️ Senior surgeon consultation required"]
  else if String.eqb risk_category "High" then
    ["⚠️ Enhanced monitoring required";
     "🩺 Pre-operative optimization needed";
     "🏥 Post-op HDU/ICU monitoring considered"]
  else if String.eqb risk_category "Moderate" then
    ["📋 Standard pre-operative assessment";
     "👀 Regular post-operative monitoring";
     "💊 Optimize medications pre-operatively"]
  else ["✅ Standard care protocol applicable"].

Module Metrics.
(** The three figures at the top of the assessment. *)
Record t := mk {
  risk_score : Z;
  risk_category : string;
  risk_emoji : string;
  mortality_risk : Q
}.
End Metrics.

(** What the assessment page does for the selected patient: the figures
    are shown first; the breakdown chart and the recommendations follow
    unless building the breakdown raises. *)
Inductive Assessed :=
| breakdown_raised (metrics : Metrics.t) (err : PyError)
| assessed (metrics : Metrics.t) (breakdown : list (string * Z))
    (recs : list string).

Definition assess (patient : Patient.t) : Assessed :=
  let risk_score := score_of patient in
  let '(risk_category, risk_emoji) :=
    SurgeryRiskCalculator.get_risk_category risk_score in
  let metrics :=
    Metrics.mk risk_score risk_category risk_emoji (mortality_risk risk_score) in
  match factors patient with
  | inl err => breakdown_raised metrics err
  | inr breakdown => assessed metrics breakdown (recommendations risk_category)
  end.

(** Whether a run of the registration page registers its form. *)
Definition accepted (run : Form.t * Z) : bool :=
  Form.submitted run.1 && truthy (Form.name run.1).

(** *** Choosing the patient

    The select box offers one label per patient, [name (ID: id)], and the
    page reads the id back out of the chosen label. *)

(** [str(n)] of an integer: decimal digits, a minus sign when negative. *)
Definition py_str (n : Z) : string :=
  DecimalString.NilZero.string_of_int (Z.to_int n).

(** [int(text)].  Python reads more than plain decimals (blanks around the
    number, a sign, underscores between digits, digits of other scripts);
    the page relies on one thing only: it reads back what [str] writes.
    [None] stands for [ValueError]. *)
Class IntOfStr := {
  py_int : string → option Z;
  py_int_str : ∀ n : Z, py_int (py_str n) = Some n
}.

(** [text.split(sep)] for a non-empty [sep], scanning from the left:
    [piece] is the part read since the last separator, and [skip] counts
    the characters of a separator just found that are still to be passed
    over. *)
Fixpoint split_go (sep : string) (skip : nat) (piece : string) (text : string)
    : list string :=
  match text with
  | EmptyString => [piece]
  | String c rest =>
      match skip with
      | S skip' => split_go sep skip' piece rest
      | O =>
          if String.prefix sep text
          then piece :: split_go sep (String.length sep - 1) "" rest
          else split_go sep 0 (piece +:+ String c "") rest
      end
  end.

Definition py_split (text sep : string) : list string :=
  split_go sep 0 "" text.

(** [sep in text] *)
Fixpoint occurs_in (sep text : string) : bool :=
  String.prefix sep text ||
  match text with
  | EmptyString => false
  | String _ rest => occurs_in sep rest
  end.

(** [f"{p['name']} (ID: {p['id']})"] *)
Definition patient_name (p : Patient.t) : string :=
  Patient.name p +:+ " (ID: " +:+ py_str (Patient.id p) +:+ ")".

Inductive SelectionError := IndexError | ValueError | StopIteration.

Inductive AssessmentPage :=
| no_patients (notice : Notice)
| nothing_selected
| selection_raised (err : SelectionError)
| patient_page (result : Assessed).

Section Assessment.
Context `{IntOfStr}.

(** [int(selected.split("ID: ")[1].split(")")[0])] *)
Definition selected_patient_id (selected : string) : SelectionError + Z :=
  match py_split selected "ID: " !! 1%nat with
  | None => inl IndexError
  | Some after_id =>
      match py_split after_id ")" !! 0%nat with
      | None => inl IndexError
      | Some digits =>
          match py_int digits with
          | None => inl ValueError
          | Some patient_id => inr patient_id
          end
      end
  end.

Definition risk_assessment (patients : list Patient.t) (selected : string)
    : AssessmentPage :=
  match patients with
  | [] =>
      no_patients
        (warning "No patients registered. Please register a patient first.")
  | _ :: _ =>
      if truthy selected then
        match selected_patient_id selected with
        | inl err => selection_raised err
        | inr patient_id =>
            match next_with_id patients patient_id with
            | None => selection_raised StopIteration
            | Some patient => patient_page (assess patient)
            end
        end
      else nothing_selected
  end.

End Assessment.

(** One reader that keeps the promise of [IntOfStr], for running the page
    on concrete labels: it reads plain decimals with an optional minus
    sign, which is what [str] writes, and nothing else of what Python's
    [int] accepts. *)
Definition decimal_int (text : string) : option Z :=
  Z.of_int <$> DecimalString.NilZero.int_of_string text.

(** ** The records page *)

Module Row.
(** A row of the data frame: the patient's columns and the two computed ones. *)
Record t := mk {
  patient : Patient.t;
  risk_score : Z;
  risk_category : string
}.
End Row.

(** [pd.DataFrame(patients)] with the columns [risk_score] and
    [risk_category] added, rows in the order of the session list. *)
Definition with_risk_columns (patients : list Patient.t) : list Row.t :=
  (λ p, let risk_score := score_of p in
        Row.mk p risk_score
          (SurgeryRiskCalculator.get_risk_category risk_score).1) <$> patients.

(** The choices of the "Sort by" select box. *)
Inductive SortBy := by_name | by_age | by_risk_score | by_surgery_date.

(** A cell of the column sorted on: text for [name], a number otherwise. *)
Inductive Key :=
| str_key (s : string)
| int_key (z : Z).

Definition column (sort_by : SortBy) (row : Row.t) : Key :=
  match sort_by with
  | by_name => str_key (Patient.name (Row.patient row))
  | by_age => int_key (Patient.age (Row.patient row))
  | by_risk_score => int_key (Row.risk_score row)
  | by_surgery_date => int_key (Patient.surgery_date (Row.patient row))
  end.

(** [a <= b] on cells of one column; text compares by code units, as
    Python's [str] does by code points. *)
Definition key_leb (a b : Key) : bool :=
  match a, b with
  | str_key s1, str_key s2 => String.leb s1 s2
  | int_key z1, int_key z2 => z1 <=? z2
  | _, _ => false
  end.

Definition key_le (a b : Key) : Prop := key_leb a b = true.

Definition row_leb (sort_by : SortBy) (a b : Row.t) : bool :=
  key_leb (column sort_by a) (column sort_by b).

Definition row_le (sort_by : SortBy) (a b : Row.t) : Prop :=
  row_leb sort_by a b = true.

(** [DataFrame.sort_values(by)] with pandas' defaults.  The default
    [kind] is quicksort, for which pandas promises an ascending
    rearrangement of the rows and nothing about rows with equal keys
    (only [kind='mergesort'] and [kind='stable'] keep their order). *)
Class SortValues := {
  sort_values : SortBy → list Row.t → list Row.t;
  sort_values_Permutation : ∀ sort_by df, sort_values sort_by df ≡ₚ df;
  sort_values_ascending :
    ∀ sort_by df, StronglySorted (row_le sort_by) (sort_values sort_by df)
}.

(** The boolean mask of the query, one row at a time. *)
Definition selected (risk_filter surgery_filter : list string) (row : Row.t) : Prop :=
  Row.risk_category row ∈ risk_filter ∧
  Patient.surgery_type (Row.patient row) ∈ surgery_filter.

Global Instance selected_dec risk_filter surgery_filter row :
  Decision (selected risk_filter surgery_filter row).
Proof. unfold selected. apply _. Defined.

Inductive RecordsPage :=
| no_records (notice : Notice)
| records_table (filtered_df : list Row.t).

Section Records.
Context `{SortValues}.

Definition patient_records (patients : list Patient.t)
    (risk_filter surgery_filter : list string) (sort_by : SortBy) : RecordsPage :=
  match patients with
  | [] => no_records (warning "No patient records available.")
  | _ :: _ =>
      let df := with_risk_columns patients in
      records_table
        (sort_values sort_by (filter (selected risk_filter surgery_filter) df))
  end.

End Records.

(** The rows the page shows; none when it stops at the warning. *)
Definition shown (page : RecordsPage) : list Row.t :=
  match page with
  | no_records _ => []
  | records_table filtered_df => filtered_df
  end.

(** *** A sort to run the page with

    Where a concrete [sort_values] is needed, an insertion sort. *)

(** Insertion in front of the first row that [goes_before] allows. *)
Fixpoint insert_row (goes_before : Row.t → Row.t → bool) (x : Row.t)
    (sorted : list Row.t) : list Row.t :=
  match sorted with
  | [] => [x]
  | y :: rest =>
      if goes_before x y then x :: y :: rest
      else y :: insert_row goes_before x rest
  end.

Definition insertion_sort (goes_before : Row.t → Row.t → bool)
    (rows : list Row.t) : list Row.t :=
  foldr (insert_row goes_before) [] rows.

(** A row is placed in front of the later rows whose key is not smaller:
    rows with equal keys keep their original order. *)
Definition stable_sort (sort_by : SortBy) : list Row.t → list Row.t :=
  insertion_sort (row_leb sort_by).

(** [series.unique()]: the values in the order of their first appearance. *)
Definition unique (values : list string) : list string :=
  foldl (λ seen v, if decide (v ∈ seen) then seen else seen ++ [v]) [] values.

(** The selections the two filter boxes start with: every risk category
    and every surgery type present in the data frame. *)
Definition default_risk_filter (patients : list Patient.t) : list string :=
  unique (Row.risk_category <$> with_risk_columns patients).

Definition default_surgery_filter (patients : list Patient.t) : list string :=
  unique ((λ row, Patient.surgery_type (Row.patient row))
            <$> with_risk_columns patients).

(** The detailed view under the table: the id chosen among the ids of the
    table ([None] when the table is empty), tested for truth, and then
    [filtered_df[filtered_df['id'] == selected_id].iloc[0]]. *)
Inductive Detail :=
| no_detail
| detail_raised (err : SelectionError)
| detail_of (row : Row.t).

Definition detailed_view (filtered_df : list Row.t) (selected_id : option Z)
    : Detail :=
  match selected_id with
  | None => no_detail
  | Some selected_id =>
      if selected_id =? 0 then no_detail
      else
        match filter (λ row, Patient.id (Row.patient row) = selected_id)
                filtered_df with
        | [] => detail_raised IndexError
        | patient :: _ => detail_of patient
        end
  end.

(** ** The dashboard *)

(** [series.value_counts()] as the mapping from each value that occurs to
    the number of its occurrences (the order of the entries only matters
    to the chart drawn from it). *)
Definition value_counts (values : list string) : gmap string nat :=
  foldr (λ v counts, <[v := S (default 0%nat (counts !! v))]> counts) ∅ values.

Module Dashboard.
(** The key figures and the data of the pie chart; the mean age, a float,
    and the drawing of the charts are not part of the model. *)
Record t := mk {
  total_patients : Z;
  high_risk : Z;
  emergency_count : Z;
  risk_counts : gmap string nat
}.
End Dashboard.

Inductive DashboardPage :=
| no_patient_data (notice : Notice)
| dashboard_shown (figures : Dashboard.t).

Definition dashboard (patients : list Patient.t) : DashboardPage :=
  match patients with
  | [] => no_patient_data (warning "No patient data available.")
  | _ :: _ =>
      let df := with_risk_columns patients in
      dashboard_shown {|
        Dashboard.total_patients := Z.of_nat (length df);
        Dashboard.high_risk :=
          Z.of_nat (length (filter (λ row, Row.risk_category row ∈ ["High"; "Critical"]) df));
        Dashboard.emergency_count :=
          foldr (λ row total,
                   (if Patient.emergency (Row.patient row) then 1 else 0) + total)
            0 df;
        Dashboard.risk_counts := value_counts (Row.risk_category <$> df)
      |}
  end.

(** * Properties *)

Import SurgeryRiskCalculator.

(** ** Helper lemmas *)

Lemma Qltb_lt x y : Qltb x y = true ↔ (x < y)%Q.
Proof.
  unfold Qltb. rewrite Qlt_alt.
  destruct (x ?= y)%Q; split; congruence.
Qed.

Lemma Qltb_ge x y : Qltb x y = false ↔ (y <= x)%Q.
Proof.
  unfold Qltb. rewrite Qge_alt.
  destruct (x ?= y)%Q; split; congruence.
Qed.

Lemma py_min_Qmin a b : py_min a b == Qmin a b.
Proof.
  unfold py_min. destruct (Qltb b a) eqn:E.
  - apply Qltb_lt, Qlt_le_weak in E. symmetry. by apply Q.min_r.
  - apply Qltb_ge in E. symmetry. by apply Q.min_l.
Qed.

(** The table of surgery types, key by key. *)
Lemma surgery_scores_lookup (surgery_type : string) :
  surgery_scores !! surgery_type =
    if decide (surgery_type = "Minor") then Some 1
    else if decide (surgery_type = "Moderate") then Some 3
    else if decide (surgery_type = "Major") then Some 6
    else if decide (surgery_type = "Complex") then Some 9
    else None.
Proof.
  unfold surgery_scores.
  repeat (rewrite lookup_insert; case_decide; subst;
          [ repeat (case_decide; try done) | ]).
  rewrite lookup_empty. by repeat (case_decide; subst; try done).
Qed.

(** The lookup with default, key by key. *)
Lemma surgery_scores_get surgery_type :
  dict_get surgery_scores surgery_type 3 =
    if decide (surgery_type = "Minor") then 1
    else if decide (surgery_type = "Moderate") then 3
    else if decide (surgery_type = "Major") then 6
    else if decide (surgery_type = "Complex") then 9
    else 3.
Proof.
  unfold dict_get. rewrite surgery_scores_lookup.
  by repeat case_decide.
Qed.

Lemma surgery_scores_get_bounds surgery_type :
  1 ≤ dict_get surgery_scores surgery_type 3 ≤ 9.
Proof. rewrite surgery_scores_get. repeat case_decide; lia. Qed.

(** No block looks at the running score: what it adds is the same from
    any starting value. *)
Lemma age_contribution age score :
  contribution (add_age_factor age) score =
    if age <? 18 then 1 else if age <? 40 then 2 else if age <? 65 then 4 else 7.
Proof.
  unfold contribution, add_age_factor.
  repeat (destruct (_ <? _)); lia.
Qed.

Lemma bmi_contribution bmi score :
  contribution (add_bmi_factor bmi) score =
    if Qltb bmi (37 # 2) then 3 else if Qltb 30 bmi then 4 else 0.
Proof.
  unfold contribution, add_bmi_factor.
  destruct (Qltb bmi (37 # 2)); [lia|].
  destruct (Qltb 30 bmi) eqn:E30; [lia|].
  destruct (Qltb 35 bmi) eqn:E35; [|lia].
  apply Qltb_ge in E30. apply Qltb_lt in E35.
  pose proof (Qlt_le_trans _ _ _ E35 E30) as Hc. by vm_compute in Hc.
Qed.

Lemma comorbidities_contribution comorbidities score :
  contribution (add_comorbidities comorbidities) score =
    2 * Z.of_nat (length comorbidities).
Proof. unfold contribution, add_comorbidities. lia. Qed.

Lemma surgery_contribution surgery_type score :
  contribution (add_surgery_type surgery_type) score =
    dict_get surgery_scores surgery_type 3.
Proof. unfold contribution, add_surgery_type. lia. Qed.

Lemma asa_contribution asa_class score :
  contribution (add_asa_class asa_class) score = 2 * asa_class.
Proof. unfold contribution, add_asa_class. lia. Qed.

Lemma calculate_risk_score_sum age bmi comorbidities surgery_type asa_class :
  calculate_risk_score age bmi comorbidities surgery_type asa_class =
    Z.min (contribution (add_age_factor age) 0
           + contribution (add_bmi_factor bmi) 0
           + contribution (add_comorbidities comorbidities) 0
           + contribution (add_surgery_type surgery_type) 0
           + contribution (add_asa_class asa_class) 0) 30.
Proof.
  pose proof (bmi_contribution bmi (add_age_factor age 0)) as Hbmi.
  rewrite <- (bmi_contribution bmi 0) in Hbmi.
  unfold calculate_risk_score, contribution in *.
  f_equal. unfold add_asa_class, add_surgery_type, add_comorbidities. lia.
Qed.

Lemma bmi_contribution_Qeq bmi bmi' score :
  bmi == bmi' →
  contribution (add_bmi_factor bmi) score = contribution (add_bmi_factor bmi') score.
Proof.
  intros E. rewrite !bmi_contribution.
  assert (Hc : ∀ x y x' y', x == x' → y == y' → Qltb x y = Qltb x' y').
  { intros x y x' y' Ex Ey. unfold Qltb. by rewrite Ex, Ey. }
  by rewrite (Hc bmi (37 # 2) bmi' (37 # 2)), (Hc 30%Q bmi 30%Q bmi').
Qed.

(** ** The risk engine *)

(** The two worked examples of the specification. *)
Example score_of_elderly_major :
  calculate_risk_score 70 32 ["Diabetes"; "Hypertension"] "Major" 3 = 27 ∧
  (get_risk_category 27).1 = "Critical" ∧
  mortality_risk 27 == 27 # 2.
Proof. by vm_compute. Qed.

Example score_of_young_minor :
  calculate_risk_score 25 22 [] "Minor" 1 = 5 ∧
  (get_risk_category 5).1 = "Low".
Proof. by vm_compute. Qed.

(** C1 (the code departs from the claim).  A body mass index above 35 is
    scored by the [bmi > 30] branch, which is tested first: at bmi 36 the
    BMI block adds 4 and the patient of the example scores 9; no input
    makes the block add 6, so the [bmi > 35] branch is never taken. *)
Theorem bmi_above_35_adds_4 :
  contribution (add_bmi_factor 36) 0 = 4 ∧
  calculate_risk_score 30 36 [] "Minor" 1 = 9 ∧
  ∀ bmi score, contribution (add_bmi_factor bmi) score ≠ 6.
Proof.
  split; [by vm_compute|]. split; [by vm_compute|].
  intros bmi score. rewrite bmi_contribution.
  repeat (destruct (Qltb _ _)); lia.
Qed.

(** C3, as the code has it.  The comorbidities block adds twice the number
    of entries of the list it is given, repeated entries included; on a
    list without repetition that is twice the number of distinct
    comorbidities. *)
Theorem comorbidities_adds_twice_length (comorbidities : list string) (score : Z) :
  contribution (add_comorbidities comorbidities) score
    = 2 * Z.of_nat (length comorbidities) ∧
  (NoDup comorbidities →
   contribution (add_comorbidities comorbidities) score
     = 2 * Z.of_nat (size (list_to_set comorbidities : gset string))).
Proof.
  split; [apply comorbidities_contribution|].
  intros Hnd. rewrite comorbidities_contribution.
  by rewrite size_list_to_set.
Qed.

Lemma comorbidities_adds_twice_length_witness :
  NoDup ["Diabetes"; "Hypertension"] ∧
  contribution (add_comorbidities ["Diabetes"; "Hypertension"]) 0
    = 2 * Z.of_nat (size (list_to_set ["Diabetes"; "Hypertension"] : gset string)).
Proof.
  assert (Hnd : NoDup ["Diabetes"; "Hypertension"]) by compute_done.
  split; [exact Hnd|].
  exact (proj2 (comorbidities_adds_twice_length ["Diabetes"; "Hypertension"] 0) Hnd).
Defined.

(** C3 fails as stated: a comorbidity listed twice is counted twice. *)
Lemma duplicate_comorbidity_counted_twice :
  contribution (add_comorbidities ["Diabetes"; "Diabetes"]) 0
    ≠ 2 * Z.of_nat (size (list_to_set ["Diabetes"; "Diabetes"] : gset string)).
Proof. by vm_compute. Qed.

(** C4.  [get_risk_category] splits the integers into four adjoining
    bands: up to 8 is Low, 9 to 15 Moderate, 16 to 22 High, above 22
    Critical; the scores 8, 9, 15, 16, 22, 23 fall in Low, Moderate,
    Moderate, High, High, Critical. *)
Theorem get_risk_category_bands (score : Z) :
  ((get_risk_category score).1 = "Low" ↔ score ≤ 8) ∧
  ((get_risk_category score).1 = "Moderate" ↔ 9 ≤ score ≤ 15) ∧
  ((get_risk_category score).1 = "High" ↔ 16 ≤ score ≤ 22) ∧
  ((get_risk_category score).1 = "Critical" ↔ 22 < score) ∧
  (get_risk_category 8).1 = "Low" ∧
  (get_risk_category 9).1 = "Moderate" ∧
  (get_risk_category 15).1 = "Moderate" ∧
  (get_risk_category 16).1 = "High" ∧
  (get_risk_category 22).1 = "High" ∧
  (get_risk_category 23).1 = "Critical".
Proof.
  unfold get_risk_category.
  destruct (Z.leb_spec score 8), (Z.leb_spec score 15), (Z.leb_spec score 22);
    simpl; repeat split; intros; try done; lia.
Qed.

Lemma get_risk_category_bands_witness :
  (get_risk_category 12).1 = "Moderate" ∧ 9 ≤ 12 ≤ 15.
Proof.
  split.
  - apply (proj2 (proj1 (proj2 (get_risk_category_bands 12)))). lia.
  - apply (proj1 (proj1 (proj2 (get_risk_category_bands 12)))). reflexivity.
Defined.

Lemma surgery_scores_get_spec (surgery_type : string) :
  dict_get surgery_scores surgery_type 3 = surgeryContribution_spec surgery_type.
Proof.
  rewrite surgery_scores_get. unfold surgeryContribution_spec.
  repeat (case_decide as Heq;
          [by rewrite Heq | rewrite (proj2 (String.eqb_neq _ _) Heq); clear Heq]).
  done.
Qed.

(** C5, as the code has it.  For an age in 1..120 and an ASA class in
    1..5, whatever the body mass index, the comorbidity list and the
    surgery type, the score lies between 0 and 30, and two floats denoting
    the same number give the same score.  For a body mass index of at most
    35 the score is the sum, capped at 30, of the table's points for age,
    BMI, surgery type and ASA class and of twice the number of entries of
    the comorbidity list; where no entry is repeated that is the score as
    the table defines it. *)
Theorem calculate_risk_score_clamped_sum (age : Z) (bmi : Q)
    (comorbidities : list string) (surgery_type : string) (asa_class : Z) :
  1 ≤ age ≤ 120 → 1 ≤ asa_class ≤ 5 →
  0 ≤ calculate_risk_score age bmi comorbidities surgery_type asa_class ≤ 30 ∧
  ((bmi <= 35)%Q →
   calculate_risk_score age bmi comorbidities surgery_type asa_class =
     Z.min (ageContribution_spec age + bmiContribution_spec bmi
            + 2 * Z.of_nat (length comorbidities)
            + surgeryContribution_spec surgery_type
            + asaContribution_spec asa_class) 30) ∧
  ((bmi <= 35)%Q → NoDup comorbidities →
   calculate_risk_score age bmi comorbidities surgery_type asa_class =
     computeScore_spec age bmi comorbidities surgery_type asa_class) ∧
  ∀ bmi', bmi == bmi' →
    calculate_risk_score age bmi' comorbidities surgery_type asa_class =
    calculate_risk_score age bmi comorbidities surgery_type asa_class.
Proof.
  intros Hage Hasa.
  assert (Hsum : (bmi <= 35)%Q →
    calculate_risk_score age bmi comorbidities surgery_type asa_class =
      Z.min (ageContribution_spec age + bmiContribution_spec bmi
             + 2 * Z.of_nat (length comorbidities)
             + surgeryContribution_spec surgery_type
             + asaContribution_spec asa_class) 30).
  { intros Hbmi.
    rewrite calculate_risk_score_sum, age_contribution, bmi_contribution,
      comorbidities_contribution, surgery_contribution, asa_contribution,
      surgery_scores_get_spec.
    unfold ageContribution_spec, bmiContribution_spec, asaContribution_spec.
    by rewrite (proj2 (Qltb_ge 35 bmi) Hbmi). }
  split; [|split; [exact Hsum|split]].
  - rewrite calculate_risk_score_sum, age_contribution, bmi_contribution,
      comorbidities_contribution, surgery_contribution, asa_contribution.
    pose proof (surgery_scores_get_bounds surgery_type).
    repeat case_match; lia.
  - intros Hbmi Hnd. rewrite (Hsum Hbmi).
    unfold computeScore_spec, comorbiditiesContribution_spec.
    by rewrite size_list_to_set.
  - intros bmi' E. rewrite !calculate_risk_score_sum.
    by rewrite (bmi_contribution_Qeq bmi bmi' 0 E).
Qed.

Lemma calculate_risk_score_clamped_sum_witness :
  calculate_risk_score 70 32 ["Diabetes"; "Hypertension"] "Major" 3
    = computeScore_spec 70 32 ["Diabetes"; "Hypertension"] "Major" 3.
Proof.
  assert (Hage : 1 ≤ 70 ≤ 120) by lia.
  assert (Hasa : 1 ≤ 3 ≤ 5) by lia.
  assert (Hbmi : (32 <= 35)%Q) by (by vm_compute).
  assert (Hnd : NoDup ["Diabetes"; "Hypertension"]) by compute_done.
  exact (proj1 (proj2 (proj2
           (calculate_risk_score_clamped_sum 70 32 ["Diabetes"; "Hypertension"]
              "Major" 3 Hage Hasa))) Hbmi Hnd).
Defined.

(** C5 fails as stated: the score is not always the capped sum of the
    table's five contributions.  A comorbidity listed twice counts twice
    (9 where the table gives 7), and at a body mass index of 36 the score
    is 9 where the table gives 11. *)
Lemma score_differs_from_table_sum :
  calculate_risk_score 30 22 ["Diabetes"; "Diabetes"] "Minor" 1
    ≠ computeScore_spec 30 22 ["Diabetes"; "Diabetes"] "Minor" 1 ∧
  calculate_risk_score 30 36 [] "Minor" 1 ≠ computeScore_spec 30 36 [] "Minor" 1.
Proof. split; by vm_compute. Qed.

(** C9.  For an age of at least 1 and an ASA class in 1..5 the score is at
    least 4: the age block adds at least 1, the surgery block at least 1
    (3 for a type outside the table) and the ASA block at least 2; so no
    score from 0 to 3 comes out, and the mortality estimate is at least
    2. *)
Theorem calculate_risk_score_at_least_4 (age : Z) (bmi : Q)
    (comorbidities : list string) (surgery_type : string) (asa_class : Z) :
  1 ≤ age → 1 ≤ asa_class ≤ 5 →
  1 ≤ contribution (add_age_factor age) 0 ∧
  1 ≤ contribution (add_surgery_type surgery_type) 0 ∧
  (surgery_scores !! surgery_type = None →
   contribution (add_surgery_type surgery_type) 0 = 3) ∧
  2 ≤ contribution (add_asa_class asa_class) 0 ∧
  4 ≤ calculate_risk_score age bmi comorbidities surgery_type asa_class ∧
  (2 <= mortality_risk
          (calculate_risk_score age bmi comorbidities surgery_type asa_class))%Q.
Proof.
  intros Hage Hasa.
  pose proof (surgery_scores_get_bounds surgery_type) as Hst.
  assert (H4 : 4 ≤ calculate_risk_score age bmi comorbidities surgery_type asa_class).
  { rewrite calculate_risk_score_sum, age_contribution, bmi_contribution,
      comorbidities_contribution, surgery_contribution, asa_contribution.
    repeat case_match; lia. }
  repeat split.
  - rewrite age_contribution. repeat case_match; lia.
  - rewrite surgery_contribution. lia.
  - intros Hnone. rewrite surgery_contribution. unfold dict_get. by rewrite Hnone.
  - rewrite asa_contribution. lia.
  - exact H4.
  - unfold mortality_risk. rewrite py_min_Qmin. apply Q.min_glb; [|done].
    unfold Qle, Qmult, inject_Z. simpl. lia.
Qed.

Lemma calculate_risk_score_at_least_4_witness :
  4 ≤ calculate_risk_score 1 22 [] "Minor" 1.
Proof.
  apply (calculate_risk_score_at_least_4 1 22 [] "Minor" 1); lia.
Defined.

(** C6.  The mortality estimate is the smaller of half the score and 15;
    it never exceeds 15 and does not decrease when the score grows. *)
Theorem mortality_risk_monotone_capped (score1 score2 : Z) :
  mortality_risk score1 == Qmin (inject_Z score1 * (1 # 2)) 15 ∧
  (mortality_risk score1 <= 15)%Q ∧
  (score1 ≤ score2 → (mortality_risk score1 <= mortality_risk score2)%Q).
Proof.
  unfold mortality_risk. split; [apply py_min_Qmin|]. split.
  - rewrite py_min_Qmin. apply Q.le_min_r.
  - intros Hle. rewrite !py_min_Qmin. apply Q.min_le_compat_r.
    unfold Qle, Qmult, inject_Z. simpl. lia.
Qed.

Lemma mortality_risk_monotone_capped_witness :
  (mortality_risk 5 <= mortality_risk 27)%Q.
Proof.
  apply (mortality_risk_monotone_capped 5 27). lia.
Defined.

(** ** The patient store *)

Section StoreFacts.
Variable round_bmi : Z → Z → Q.

Lemma patient_registration_length patients form now :
  length (patient_registration round_bmi patients form now).1 =
    if Form.submitted form && truthy (Form.name form)
    then S (length patients) else length patients.
Proof.
  unfold patient_registration. case_match; simpl; [|done].
  rewrite length_app. simpl. lia.
Qed.

Lemma patient_registration_ids patients form now :
  ids_count_up patients →
  ids_count_up (patient_registration round_bmi patients form now).1.
Proof.
  unfold ids_count_up, patient_registration. intros Hids.
  case_match; simpl; [|done].
  rewrite fmap_app, length_app, seq_app, fmap_app, Hids. simpl.
  do 3 f_equal. lia.
Qed.

Lemma register_all_ids runs : ∀ patients,
  ids_count_up patients → ids_count_up (register_all round_bmi patients runs).
Proof.
  induction runs as [|run runs IH]; intros patients Hids; [done|].
  simpl. apply IH. by apply patient_registration_ids.
Qed.

End StoreFacts.

Lemma seq_strictly_increasing start len :
  StronglySorted Z.lt (Z.of_nat <$> seq start len).
Proof.
  revert start. induction len as [|len IH]; intros start; simpl.
  - constructor.
  - constructor; [apply IH|].
    apply Forall_fmap, Forall_forall. intros k Hk.
    apply elem_of_seq in Hk. simpl. lia.
Qed.

(** C7.  A submitted form with a name appends one record whose id is one
    more than the number of records already in the session and changes no
    other record; so after any sequence of runs of the registration page
    from the empty session the ids are 1, 2, ..., in insertion order:
    strictly increasing and without repetition. *)
Theorem patient_ids_sequential (round_bmi : Z → Z → Q)
    (runs : list (Form.t * Z)) (patients : list Patient.t)
    (form : Form.t) (now : Z) :
  (Form.submitted form = true → Form.name form ≠ "" →
   ∃ patient,
     patient_registration round_bmi patients form now
       = (patients ++ [patient],
          [success_registered (Form.name form) (Patient.id patient)]) ∧
     Patient.id patient = Z.of_nat (length patients) + 1) ∧
  let session := register_all round_bmi initial_patients runs in
  Patient.id <$> session = Z.of_nat <$> seq 1 (length session) ∧
  StronglySorted Z.lt (Patient.id <$> session) ∧
  NoDup (Patient.id <$> session).
Proof.
  split.
  - intros Hsub Hname. unfold patient_registration. rewrite Hsub.
    destruct (Form.name form) eqn:E; [done|]. simpl.
    eexists (Patient.mk (Z.of_nat (length patients) + 1)
               _ _ _ _ _ _ _ _ _ _ _ _ _ _ _ _).
    split; reflexivity.
  - intros session.
    assert (Hids : ids_count_up session)
      by (by apply register_all_ids).
    unfold ids_count_up in Hids. rewrite Hids. split; [done|]. split.
    + apply seq_strictly_increasing.
    + apply NoDup_fmap; [apply _|apply NoDup_seq].
Qed.

Lemma patient_ids_sequential_witness :
  ∃ patient,
    patient_registration exact_bmi initial_patients form_of_ada 0
      = (initial_patients ++ [patient], [success_registered "Ada" (Patient.id patient)])
    ∧ Patient.id patient = 1.
Proof.
  apply (patient_ids_sequential exact_bmi [] initial_patients form_of_ada 0);
    [reflexivity | discriminate].
Defined.

(** C8, as the code has it.  A form submitted without a name registers
    nothing: the session list comes back as it was, whatever it held, and
    no message is shown, neither the success notice nor an error. *)
Theorem empty_name_registers_nothing (round_bmi : Z → Z → Q)
    (patients : list Patient.t) (form : Form.t) (now : Z) :
  Form.name form = "" →
  patient_registration round_bmi patients form now = (patients, []).
Proof.
  intros Hname. unfold patient_registration. rewrite Hname. simpl.
  by rewrite andb_false_r.
Qed.

Lemma empty_name_registers_nothing_witness :
  patient_registration exact_bmi initial_patients nameless_form 0
    = (initial_patients, []).
Proof.
  apply (empty_name_registers_nothing exact_bmi initial_patients nameless_form 0).
  reflexivity.
Defined.

(** C8 fails as stated: submitting the nameless form reports nothing to
    the caller. *)
Lemma empty_name_not_reported :
  ¬ ∃ notice : Notice,
      notice ∈ (patient_registration exact_bmi initial_patients nameless_form 0).2.
Proof. intros [notice Hin]. simpl in Hin. by apply elem_of_nil in Hin. Qed.

(** ** The factor breakdown *)

(** C10.  The breakdown indexes its table of surgery types without a
    default: for a type outside Minor, Moderate, Major, Complex it raises
    [KeyError], while the score of the same patient is computed with 3 for
    the surgery block; for one of the four types the breakdown is built. *)
Theorem factors_KeyError (patient : Patient.t) :
  (Patient.surgery_type patient ∉ ["Minor"; "Moderate"; "Major"; "Complex"] →
   factors patient = inl (KeyError (Patient.surgery_type patient)) ∧
   contribution (add_surgery_type (Patient.surgery_type patient)) 0 = 3 ∧
   score_of patient =
     Z.min (contribution (add_age_factor (Patient.age patient)) 0
            + contribution (add_bmi_factor (Patient.bmi patient)) 0
            + contribution (add_comorbidities (Patient.comorbidities patient)) 0
            + 3
            + contribution (add_asa_class (Patient.asa_class patient)) 0) 30) ∧
  (Patient.surgery_type patient ∈ ["Minor"; "Moderate"; "Major"; "Complex"] →
   ∃ breakdown, factors patient = inr breakdown).
Proof.
  split.
  - intros Hout.
    assert (Hnone : surgery_scores !! Patient.surgery_type patient = None).
    { rewrite surgery_scores_lookup.
      repeat case_decide; try done; exfalso; apply Hout;
        match goal with Heq : Patient.surgery_type _ = _ |- _ => rewrite Heq end;
        set_solver. }
    assert (H3 : contribution (add_surgery_type (Patient.surgery_type patient)) 0 = 3).
    { rewrite surgery_contribution. unfold dict_get. by rewrite Hnone. }
    split; [|split; [exact H3|]].
    + unfold factors, dict_getitem. fold surgery_scores. by rewrite Hnone.
    + unfold score_of. by rewrite calculate_risk_score_sum, H3.
  - intros Hin. unfold factors, dict_getitem. fold surgery_scores.
    rewrite surgery_scores_lookup.
    repeat (case_decide; [by eexists|]).
    by repeat (apply elem_of_cons in Hin as [?|Hin]; [done|]);
      apply elem_of_nil in Hin.
Qed.

Lemma factors_KeyError_witness :
  ∃ breakdown,
    factors (Patient.mk 1 "Ada" 30 "Female" 170 70 (2422 # 100) 739000 "Major" ""
               1 false [] "" "" "" 0) = inr breakdown.
Proof.
  apply (factors_KeyError (Patient.mk 1 "Ada" 30 "Female" 170 70 (2422 # 100)
                             739000 "Major" "" 1 false [] "" "" "" 0)).
  simpl. set_solver.
Defined.

(** ** The order on sort keys *)

Lemma string_leb_trans (s1 s2 s3 : string) :
  String.leb s1 s2 = true → String.leb s2 s3 = true → String.leb s1 s3 = true.
Proof.
  unfold String.leb. revert s2 s3.
  induction s1 as [|c1 s1 IH]; intros [|c2 s2] [|c3 s3]; simpl; try done.
  unfold Ascii.compare.
  destruct (N.compare_spec (Ascii.N_of_ascii c1) (Ascii.N_of_ascii c2)) as [E12|L12|G12];
    destruct (N.compare_spec (Ascii.N_of_ascii c2) (Ascii.N_of_ascii c3)) as [E23|L23|G23];
    try done;
    destruct (N.compare_spec (Ascii.N_of_ascii c1) (Ascii.N_of_ascii c3)) as [E13|L13|G13];
    try done; try lia.
  apply IH.
Qed.

Global Instance key_le_trans : Transitive key_le.
Proof.
  intros [s1|z1] [s2|z2] [s3|z3]; unfold key_le; simpl; try done.
  - apply string_leb_trans.
  - rewrite !Z.leb_le. lia.
Qed.

Global Instance key_le_antisym : AntiSymm (=) key_le.
Proof.
  intros [s1|z1] [s2|z2]; unfold key_le; simpl; try done.
  - intros H1 H2. f_equal. by apply String.leb_antisym.
  - rewrite !Z.leb_le. intros. f_equal. lia.
Qed.

Global Instance row_le_trans sort_by : Transitive (row_le sort_by).
Proof.
  intros a b c. unfold row_le, row_leb. apply key_le_trans.
Qed.

(** Two cells of one column always compare. *)
Lemma row_leb_total sort_by a b :
  row_leb sort_by a b = false → row_leb sort_by b a = true.
Proof.
  unfold row_leb. destruct sort_by; simpl.
  - destruct (String.leb_total (Patient.name (Row.patient a))
                (Patient.name (Row.patient b))); congruence.
  - rewrite Z.leb_gt, Z.leb_le. lia.
  - rewrite Z.leb_gt, Z.leb_le. lia.
  - rewrite Z.leb_gt, Z.leb_le. lia.
Qed.

(** ** Insertion sort, for either treatment of equal keys *)

Section InsertionSort.
Variable sort_by : SortBy.
Variable goes_before : Row.t → Row.t → bool.
Hypothesis goes_before_le :
  ∀ x y, goes_before x y = true → row_le sort_by x y.
Hypothesis stays_behind_le :
  ∀ x y, goes_before x y = false → row_le sort_by y x.

Lemma insert_row_Permutation x rows :
  insert_row goes_before x rows ≡ₚ x :: rows.
Proof.
  induction rows as [|y rows IH]; simpl; [done|].
  case_match; [done|]. rewrite IH. apply perm_swap.
Qed.

Lemma insert_row_sorted x rows :
  StronglySorted (row_le sort_by) rows →
  StronglySorted (row_le sort_by) (insert_row goes_before x rows).
Proof.
  induction 1 as [|y rows Hsorted IH Hy]; simpl.
  - repeat constructor.
  - destruct (goes_before x y) eqn:E.
    + apply goes_before_le in E.
      constructor; [by constructor|].
      constructor; [done|].
      eapply Forall_impl; [exact Hy|]. intros z Hz. by etrans.
    + apply stays_behind_le in E.
      constructor; [done|].
      rewrite insert_row_Permutation. by constructor.
Qed.

Lemma insertion_sort_Permutation rows :
  insertion_sort goes_before rows ≡ₚ rows.
Proof.
  induction rows as [|x rows IH]; simpl; [done|].
  by rewrite insert_row_Permutation, IH.
Qed.

Lemma insertion_sort_sorted rows :
  StronglySorted (row_le sort_by) (insertion_sort goes_before rows).
Proof.
  induction rows as [|x rows IH]; simpl; [constructor|].
  by apply insert_row_sorted.
Qed.

End InsertionSort.

(** The insertion sort does what [sort_values] promises. *)
Definition stable_SortValues : SortValues := {|
  sort_values := stable_sort;
  sort_values_Permutation sort_by :=
    insertion_sort_Permutation (row_leb sort_by);
  sort_values_ascending sort_by :=
    insertion_sort_sorted sort_by (row_leb sort_by)
      (λ x y E, E) (row_leb_total sort_by)
|}.

(** ** The records query *)

Section RecordsFacts.
Context `{SortValues}.

Lemma shown_records_Permutation patients risk_filter surgery_filter sort_by :
  shown (patient_records patients risk_filter surgery_filter sort_by)
    ≡ₚ filter (selected risk_filter surgery_filter) (with_risk_columns patients).
Proof.
  destruct patients as [|p patients]; [done|].
  apply sort_values_Permutation.
Qed.

Lemma shown_records_ascending patients risk_filter surgery_filter sort_by :
  StronglySorted (row_le sort_by)
    (shown (patient_records patients risk_filter surgery_filter sort_by)).
Proof.
  destruct patients as [|p patients]; [constructor|].
  apply sort_values_ascending.
Qed.

End RecordsFacts.

Lemma selected_none risk_filter surgery_filter (df : list Row.t) :
  (∀ row, ¬ selected risk_filter surgery_filter row) →
  filter (selected risk_filter surgery_filter) df = [].
Proof.
  intros Hnone. induction df as [|row df IH]; [done|].
  rewrite filter_cons. case_decide; [by destruct (Hnone row)|done].
Qed.

(** X21.  Whatever the session holds and whatever the two filters and the
    sort key are, the table of the records page holds exactly the rows of
    the patients whose computed risk category is among the chosen
    categories and whose surgery type is among the chosen types, each row
    once; with nothing chosen in either filter box the table is empty. *)
Theorem patient_records_shows_selected (S : SortValues)
    (patients : list Patient.t) (risk_filter surgery_filter : list string)
    (sort_by : SortBy) :
  let out := shown (patient_records patients risk_filter surgery_filter sort_by) in
  (∀ row, row ∈ out ↔
     (∃ p, p ∈ patients ∧
           row = Row.mk p (score_of p) (get_risk_category (score_of p)).1) ∧
     Row.risk_category row ∈ risk_filter ∧
     Patient.surgery_type (Row.patient row) ∈ surgery_filter) ∧
  out ≡ₚ filter (selected risk_filter surgery_filter) (with_risk_columns patients) ∧
  shown (patient_records patients [] surgery_filter sort_by) = [] ∧
  shown (patient_records patients risk_filter [] sort_by) = [].
Proof.
  intros out.
  pose proof (shown_records_Permutation patients risk_filter surgery_filter sort_by)
    as Hperm.
  fold out in Hperm.
  split; [|split; [exact Hperm|split]].
  - intros row. rewrite Hperm, list_elem_of_filter. unfold with_risk_columns, selected.
    rewrite list_elem_of_fmap. split.
    + intros [[Hcat Hty] (p & -> & Hp)]. eauto.
    + intros ((p & Hp & ->) & Hcat & Hty). eauto.
  - apply Permutation_nil_r. rewrite shown_records_Permutation.
    rewrite selected_none; [done|].
    intros row [Hcat _]. by apply elem_of_nil in Hcat.
  - apply Permutation_nil_r. rewrite shown_records_Permutation.
    rewrite selected_none; [done|].
    intros row [_ Hty]. by apply elem_of_nil in Hty.
Qed.


(** * Further properties of the risk engine *)

Lemma surgery_scores_lookup_outside (surgery_type : string) :
  surgery_type ∉ ["Minor"; "Moderate"; "Major"; "Complex"] →
  surgery_scores !! surgery_type = None.
Proof.
  intros Hout. rewrite surgery_scores_lookup.
  repeat case_decide; try done; exfalso; apply Hout; subst; set_solver.
Qed.

(** X1.  The score never goes down with age: of two patients who differ
    only in age, the older one scores at least as much. *)
Theorem calculate_risk_score_age_monotone (age age' : Z) (bmi : Q)
    (comorbidities : list string) (surgery_type : string) (asa_class : Z) :
  age ≤ age' →
  calculate_risk_score age bmi comorbidities surgery_type asa_class
    ≤ calculate_risk_score age' bmi comorbidities surgery_type asa_class.
Proof.
  intros Hle. rewrite !calculate_risk_score_sum. apply Z.min_le_compat_r.
  rewrite !age_contribution.
  destruct (Z.ltb_spec age 18), (Z.ltb_spec age 40), (Z.ltb_spec age 65),
    (Z.ltb_spec age' 18), (Z.ltb_spec age' 40), (Z.ltb_spec age' 65); lia.
Qed.

Lemma calculate_risk_score_age_monotone_witness :
  calculate_risk_score 39 22 [] "Minor" 1 ≤ calculate_risk_score 40 22 [] "Minor" 1.
Proof.
  apply (calculate_risk_score_age_monotone 39 40 22 [] "Minor" 1). lia.
Defined.

(** X2.  One more entry in the comorbidity list, or one more ASA class,
    raises the score by 2, up to the cap of 30. *)
Theorem calculate_risk_score_step (age : Z) (bmi : Q) (comorbidity : string)
    (comorbidities : list string) (surgery_type : string) (asa_class : Z) :
  calculate_risk_score age bmi (comorbidity :: comorbidities) surgery_type asa_class
    = Z.min (calculate_risk_score age bmi comorbidities surgery_type asa_class + 2) 30 ∧
  calculate_risk_score age bmi comorbidities surgery_type (asa_class + 1)
    = Z.min (calculate_risk_score age bmi comorbidities surgery_type asa_class + 2) 30.
Proof.
  rewrite !calculate_risk_score_sum, !comorbidities_contribution, !asa_contribution.
  simpl length. split; lia.
Qed.

(** X3.  A surgery type that is not one of Minor, Moderate, Major, Complex
    (whatever its spelling or case) is scored exactly like Moderate. *)
Theorem unknown_surgery_type_scored_as_Moderate (age : Z) (bmi : Q)
    (comorbidities : list string) (surgery_type : string) (asa_class : Z) :
  surgery_type ∉ ["Minor"; "Moderate"; "Major"; "Complex"] →
  calculate_risk_score age bmi comorbidities surgery_type asa_class
    = calculate_risk_score age bmi comorbidities "Moderate" asa_class.
Proof.
  intros Hout. rewrite !calculate_risk_score_sum, !surgery_contribution.
  unfold dict_get. rewrite (surgery_scores_lookup_outside _ Hout).
  by rewrite surgery_scores_lookup.
Qed.

Lemma unknown_surgery_type_scored_as_Moderate_witness :
  calculate_risk_score 30 22 [] "minor" 1 = calculate_risk_score 30 22 [] "Moderate" 1.
Proof.
  apply (unknown_surgery_type_scored_as_Moderate 30 22 [] "minor" 1).
  compute_done.
Defined.

(** X4.  [get_risk_category] returns one of four fixed pairs: the glyph is
    green for Low, yellow for Moderate, orange for High and red for
    Critical, and no other category or glyph is ever returned. *)
Theorem get_risk_category_pairs (score : Z) :
  get_risk_category score ∈
    [("Low", "🟢"); ("Moderate", "🟡"); ("High", "🟠"); ("Critical", "🔴")] ∧
  ((get_risk_category score).2 = "🟢" ↔ (get_risk_category score).1 = "Low") ∧
  ((get_risk_category score).2 = "🟡" ↔ (get_risk_category score).1 = "Moderate") ∧
  ((get_risk_category score).2 = "🟠" ↔ (get_risk_category score).1 = "High") ∧
  ((get_risk_category score).2 = "🔴" ↔ (get_risk_category score).1 = "Critical").
Proof.
  unfold get_risk_category.
  repeat case_match; simpl; (split; [set_solver|]); repeat split; done.
Qed.


(** * Further properties of the patient store *)

Section StoreMore.
Variable round_bmi : Z → Z → Q.

Lemma patient_registration_prefix patients form now :
  patients `prefix_of` (patient_registration round_bmi patients form now).1.
Proof.
  unfold patient_registration. case_match; simpl; [|done].
  by apply prefix_app_r.
Qed.

Lemma register_all_prefix runs : ∀ patients,
  patients `prefix_of` register_all round_bmi patients runs.
Proof.
  induction runs as [|run runs IH]; intros patients; [done|].
  simpl. etrans; [apply patient_registration_prefix|apply IH].
Qed.

Lemma register_all_length runs : ∀ patients,
  length (register_all round_bmi patients runs)
    = (length patients + length (filter (λ run, accepted run = true) runs))%nat.
Proof.
  induction runs as [|run runs IH]; intros patients; simpl; [lia|].
  rewrite IH, patient_registration_length, filter_cons. unfold accepted.
  destruct (Form.submitted run.1 && truthy (Form.name run.1));
    case_decide; try done; simpl; lia.
Qed.

End StoreMore.

(** Looking a patient up by id in a list whose ids count up from [start]
    is indexing. *)
Lemma next_with_id_counting (patients : list Patient.t) : ∀ (start : nat) (k : Z),
  Patient.id <$> patients = Z.of_nat <$> seq start (length patients) →
  next_with_id patients k =
    if bool_decide (Z.of_nat start ≤ k) then patients !! (Z.to_nat k - start)%nat
    else None.
Proof.
  induction patients as [|p patients IH]; intros start k Hids; simpl.
  - by case_bool_decide.
  - simpl in Hids. injection Hids as Hp Hrest.
    rewrite (IH (S start) k Hrest), Hp.
    destruct (Z.eqb_spec (Z.of_nat start) k) as [<-|Hne].
    + rewrite bool_decide_eq_true_2 by lia.
      by replace (Z.to_nat (Z.of_nat start) - start)%nat with 0%nat by lia.
    + repeat case_bool_decide; try lia.
      * replace (Z.to_nat k - start)%nat with (S (Z.to_nat k - S start)) by lia.
        done.
      * done.
Qed.

(** X5.  The session is only ever appended to: whatever forms are
    submitted afterwards, the records already registered stay where they
    are, unchanged. *)
Theorem registered_records_are_kept (round_bmi : Z → Z → Q)
    (patients : list Patient.t) (runs : list (Form.t * Z)) (i : nat)
    (patient : Patient.t) :
  patients `prefix_of` register_all round_bmi patients runs ∧
  (patients !! i = Some patient →
   register_all round_bmi patients runs !! i = Some patient).
Proof.
  pose proof (register_all_prefix round_bmi runs patients) as Hpre.
  split; [done|]. intros Hi. by eapply prefix_lookup_Some.
Qed.

Lemma registered_records_are_kept_witness :
  register_all exact_bmi ada_then_bob [(nameless_form, 2); (form_of_bob, 3)] !! 0%nat
    = ada_then_bob !! 0%nat.
Proof.
  destruct (ada_then_bob !! 0%nat) as [ada|] eqn:E; [|by vm_compute in E].
  apply (registered_records_are_kept exact_bmi ada_then_bob
           [(nameless_form, 2); (form_of_bob, 3)] 0 ada). exact E.
Defined.

(** X6.  After any sequence of runs of the registration page from the
    empty session, the session holds as many records as there were runs
    with the form submitted and a name filled in. *)
Theorem session_size_counts_accepted_runs (round_bmi : Z → Z → Q)
    (runs : list (Form.t * Z)) :
  length (register_all round_bmi initial_patients runs)
    = length (filter (λ run, Form.submitted run.1 = true ∧ Form.name run.1 ≠ "") runs).
Proof.
  rewrite register_all_length. simpl. f_equal.
  induction runs as [|run runs IH]; [done|].
  rewrite !filter_cons, IH. unfold accepted.
  destruct (Form.submitted run.1), (Form.name run.1) eqn:E; simpl;
    repeat case_decide; try done; naive_solver.
Qed.

(** X7.  In a session built by registration from the empty one, the
    lookup by id that the assessment page performs is indexing: id [k]
    between 1 and the number of records finds the [k]-th registered
    patient, who carries that id; any other id finds nobody (the generator
    raises [StopIteration]). *)
Theorem next_with_id_registered (round_bmi : Z → Z → Q)
    (runs : list (Form.t * Z)) (k : Z) :
  let session := register_all round_bmi initial_patients runs in
  (1 ≤ k ≤ Z.of_nat (length session) →
   ∃ patient, next_with_id session k = Some patient ∧
              session !! Z.to_nat (k - 1) = Some patient ∧
              Patient.id patient = k) ∧
  (k < 1 ∨ Z.of_nat (length session) < k → next_with_id session k = None).
Proof.
  intros session.
  assert (Hids : ids_count_up session) by (by apply register_all_ids).
  pose proof (next_with_id_counting session 1 k Hids) as Hnext.
  split.
  - intros Hk. rewrite bool_decide_eq_true_2 in Hnext by lia.
    replace (Z.to_nat k - 1)%nat with (Z.to_nat (k - 1)) in Hnext by lia.
    destruct (lookup_lt_is_Some_2 session (Z.to_nat (k - 1))) as [p Hp]; [lia|].
    exists p. rewrite Hnext. split; [done|]. split; [done|].
    assert (Hid : (Patient.id <$> session) !! Z.to_nat (k - 1) = Some (Patient.id p))
      by (by rewrite list_lookup_fmap, Hp).
    rewrite Hids, list_lookup_fmap, lookup_seq_lt in Hid by lia.
    simpl in Hid. injection Hid as Hid. lia.
  - intros [Hk|Hk].
    + by rewrite bool_decide_eq_false_2 in Hnext by lia.
    + rewrite bool_decide_eq_true_2 in Hnext by lia.
      rewrite Hnext. apply lookup_ge_None. lia.
Qed.

Lemma next_with_id_registered_witness :
  ∃ patient, next_with_id ada_then_bob 2 = Some patient ∧
             ada_then_bob !! Z.to_nat (2 - 1) = Some patient ∧
             Patient.id patient = 2.
Proof.
  apply (next_with_id_registered exact_bmi [(form_of_ada, 0); (form_of_bob, 1)] 2).
  vm_compute. split; discriminate.
Defined.


(** * Further properties of the assessment page *)

Lemma factors_known (patient : Patient.t) :
  Patient.surgery_type patient ∈ ["Minor"; "Moderate"; "Major"; "Complex"] →
  factors patient =
    inr [("Age Factor", Z.min (Patient.age patient / 10) 7);
         ("BMI Factor",
          if Qltb 30 (Patient.bmi patient) then 4
          else if Qltb (Patient.bmi patient) (37 # 2) then 3 else 1);
         ("Comorbidities", Z.of_nat (length (Patient.comorbidities patient)) * 2);
         ("Surgery Complexity",
          dict_get surgery_scores (Patient.surgery_type patient) 3);
         ("ASA Class", Patient.asa_class patient * 2)].
Proof.
  intros Hin. unfold factors, dict_getitem, dict_get. fold surgery_scores.
  rewrite surgery_scores_lookup.
  repeat (case_decide; [done|]).
  by repeat (apply elem_of_cons in Hin as [?|Hin]; [done|]);
    apply elem_of_nil in Hin.
Qed.

(** X8.  For a patient of age 0 or more with one of the four surgery
    types, the breakdown chart has five bars in a fixed order.  The bars
    for comorbidities, surgery complexity and ASA class are what the score
    adds for them; the age bar is between 1 below and 2 above what the
    score adds for age, and the BMI bar is what the score adds for BMI
    except in the normal range 18.5..30, where the bar is 1 and the score
    adds 0.  So the bars add up to between 1 less and 3 more than the
    score before its cap. *)
Theorem breakdown_versus_score (patient : Patient.t) :
  0 ≤ Patient.age patient →
  Patient.surgery_type patient ∈ ["Minor"; "Moderate"; "Major"; "Complex"] →
  ∃ age_bar bmi_bar,
    factors patient =
      inr [("Age Factor", age_bar); ("BMI Factor", bmi_bar);
           ("Comorbidities",
            contribution (add_comorbidities (Patient.comorbidities patient)) 0);
           ("Surgery Complexity",
            contribution (add_surgery_type (Patient.surgery_type patient)) 0);
           ("ASA Class", contribution (add_asa_class (Patient.asa_class patient)) 0)] ∧
    -1 ≤ age_bar - contribution (add_age_factor (Patient.age patient)) 0 ≤ 2 ∧
    (bmi_bar - contribution (add_bmi_factor (Patient.bmi patient)) 0 =
       if Qltb (Patient.bmi patient) (37 # 2) then 0
       else if Qltb 30 (Patient.bmi patient) then 0 else 1).
Proof.
  intros Hage Hin. rewrite (factors_known patient Hin).
  eexists _, _. split; [|split].
  - rewrite comorbidities_contribution, surgery_contribution, asa_contribution.
    by rewrite !(Z.mul_comm 2).
  - rewrite age_contribution.
    destruct (Z.ltb_spec (Patient.age patient) 18),
      (Z.ltb_spec (Patient.age patient) 40),
      (Z.ltb_spec (Patient.age patient) 65);
      Z.div_mod_to_equations; lia.
  - rewrite bmi_contribution.
    destruct (Qltb (Patient.bmi patient) (37 # 2)) eqn:Elow,
      (Qltb 30 (Patient.bmi patient)) eqn:Ehigh; try done.
    apply Qltb_lt in Elow, Ehigh.
    pose proof (Qlt_trans _ _ _ Ehigh Elow) as Hc. by vm_compute in Hc.
Qed.

Lemma breakdown_versus_score_witness :
  ∃ age_bar bmi_bar,
    factors (Patient.mk 1 "Ada" 62 "Female" 170 70 (2422 # 100) 739000 "Major" ""
               2 false ["Diabetes"] "" "" "" 0) =
      inr [("Age Factor", age_bar); ("BMI Factor", bmi_bar);
           ("Comorbidities", 2); ("Surgery Complexity", 6); ("ASA Class", 4)] ∧
    age_bar - 4 = 2 ∧ bmi_bar - 0 = 1.
Proof.
  destruct (breakdown_versus_score
              (Patient.mk 1 "Ada" 62 "Female" 170 70 (2422 # 100) 739000 "Major" ""
                 2 false ["Diabetes"] "" "" "" 0)) as (a & b & Hf & Ha & Hb).
  - simpl. lia.
  - simpl. set_solver.
  - vm_compute in Hf. injection Hf as <- <-. by exists 6, 1.
Defined.



(** ** Labels of the select box *)

Local Arguments String.append !_ _ / : simpl nomatch.

From Stdlib Require Import Ascii.

Lemma string_app_nil_r (s : string) : s +:+ "" = s.
Proof. induction s as [|c s IH]; simpl; [done|]. by rewrite IH. Qed.

Lemma string_app_assoc (s1 s2 s3 : string) :
  (s1 +:+ s2) +:+ s3 = s1 +:+ s2 +:+ s3.
Proof. induction s1 as [|c s1 IH]; simpl; [done|]. by rewrite IH. Qed.

Lemma prefix_app (sep rest : string) : String.prefix sep (sep +:+ rest) = true.
Proof.
  induction sep as [|c sep IH]; simpl; [by destruct rest|].
  destruct (Ascii.ascii_dec c c); [exact IH|done].
Qed.

Lemma prefix_nil (text : string) : String.prefix "" text = true.
Proof. by destruct text. Qed.

Lemma prefix_cons a sep b text :
  String.prefix (String a sep) (String b text)
    = if ascii_dec a b then String.prefix sep text else false.
Proof. reflexivity. Qed.

Lemma string_app_length (s1 s2 : string) :
  String.length (s1 +:+ s2) = (String.length s1 + String.length s2)%nat.
Proof. induction s1 as [|c s1 IH]; simpl; [done|]. by rewrite IH. Qed.

(** Whether [sep] starts a text is settled by the text's first
    characters, as many as [sep] has. *)
Lemma prefix_app_long (sep : string) : ∀ x y : string,
  (String.length sep ≤ String.length x)%nat →
  String.prefix sep (x +:+ y) = String.prefix sep x.
Proof.
  induction sep as [|a sep IH]; intros x y Hlen.
  - by rewrite !prefix_nil.
  - destruct x as [|b x]; cbn [String.length] in Hlen; [lia|].
    cbn [String.append]. rewrite !prefix_cons.
    destruct (ascii_dec a b); [|done]. apply IH. lia.
Qed.

Lemma split_go_end sep skip piece : split_go sep skip piece "" = [piece].
Proof. by destruct skip. Qed.

Lemma split_go_cons sep piece c text :
  split_go sep 0 piece (String c text) =
    if String.prefix sep (String c text)
    then piece :: split_go sep (String.length sep - 1) "" text
    else split_go sep 0 (piece +:+ String c "") text.
Proof. reflexivity. Qed.

Lemma split_go_skip sep piece rest (passed : string) : ∀ skip,
  String.length passed = skip →
  split_go sep skip piece (passed +:+ rest) = split_go sep 0 piece rest.
Proof.
  induction passed as [|c passed IH]; intros skip <-; simpl; [done|].
  by apply IH.
Qed.

(** A separator at the front closes the piece read so far. *)
Lemma split_go_sep c sep piece rest :
  split_go (String c sep) 0 piece (String c sep +:+ rest)
    = piece :: split_go (String c sep) 0 "" rest.
Proof.
  change (String c sep +:+ rest) with (String c (sep +:+ rest)).
  unfold split_go at 1. fold split_go.
  change (String c (sep +:+ rest)) with (String c sep +:+ rest).
  rewrite prefix_app. f_equal.
  apply split_go_skip. simpl. lia.
Qed.

(** No character of the text is [c]. *)
Fixpoint chars_differ (c : Ascii.ascii) (text : string) : Prop :=
  match text with
  | EmptyString => True
  | String d rest => d ≠ c ∧ chars_differ c rest
  end.

Lemma chars_differ_app c s1 s2 :
  chars_differ c s1 → chars_differ c s2 → chars_differ c (s1 +:+ s2).
Proof. induction s1 as [|d s1 IH]; simpl; [done|]. intros [? ?] ?. auto. Qed.

(** Text without the separator's first character is read through. *)
Lemma split_go_other c sep rest (passed : string) : ∀ piece,
  chars_differ c passed →
  split_go (String c sep) 0 piece (passed +:+ rest)
    = split_go (String c sep) 0 (piece +:+ passed) rest.
Proof.
  induction passed as [|d passed IH]; intros piece Hd; simpl.
  - by rewrite string_app_nil_r.
  - destruct Hd as [Hd Hrest].
    destruct (Ascii.ascii_dec c d) as [->|_]; [done|].
    rewrite (IH _ Hrest). by rewrite string_app_assoc.
Qed.


Lemma py_str_chars (c : Ascii.ascii) (n : Z) :
  (∀ d, d ∈ String.list_ascii_of_string "0123456789-" → d ≠ c) →
  chars_differ c (py_str n).
Proof.
  intros Hc.
  assert (Huint : ∀ u, chars_differ c (DecimalString.NilEmpty.string_of_uint u)).
  { induction u; simpl; try done; (split; [apply Hc; simpl; repeat constructor|done]). }
  assert (Hzero : ∀ u, chars_differ c (DecimalString.NilZero.string_of_uint u)).
  { intros [| | | | | | | | | |]; try apply Huint.
    simpl. split; [apply Hc; simpl; repeat constructor|done]. }
  unfold py_str. destruct (Z.to_int n); simpl; [apply Hzero|].
  split; [apply Hc; simpl; repeat constructor|apply Hzero].
Qed.

Lemma py_str_no_I n : chars_differ "I"%char (py_str n).
Proof.
  apply py_str_chars. intros d Hd ->. simpl in Hd.
  by repeat (apply elem_of_cons in Hd as [?|Hd]; [done|]);
    apply elem_of_nil in Hd.
Qed.

Lemma py_str_no_paren n : chars_differ ")"%char (py_str n).
Proof.
  apply py_str_chars. intros d Hd ->. simpl in Hd.
  by repeat (apply elem_of_cons in Hd as [?|Hd]; [done|]);
    apply elem_of_nil in Hd.
Qed.

(** Where the text [ID: ] does not occur in the name followed by a blank,
    the first separator found in a label is the one after the bracket. *)
Lemma split_go_name (tail : string) (name : string) : ∀ piece,
  occurs_in "ID: " (name +:+ " ") = false →
  split_go "ID: " 0 piece (name +:+ " (ID: " +:+ tail)
    = (piece +:+ name +:+ " (") :: split_go "ID: " 0 "" tail.
Proof.
  induction name as [|c name IH]; intros piece Hocc.
  - change ("" +:+ " (ID: " +:+ tail) with (" (" +:+ "ID: " +:+ tail).
    rewrite split_go_other by (by repeat split).
    by rewrite (split_go_sep "I" "D: ").
  - simpl in Hocc. apply orb_false_elim in Hocc as [Hhere Hlater].
    change (String c name +:+ " (ID: " +:+ tail)
      with (String c (name +:+ " (ID: " +:+ tail)).
    rewrite split_go_cons.
    assert (Hpre : String.prefix "ID: " (String c (name +:+ " (ID: " +:+ tail))
                   = false).
    { destruct name as [|c2 [|c3 name]].
      - cbn [String.append]. rewrite !prefix_cons.
        by repeat (destruct (ascii_dec _ _); try done).
      - cbn [String.append]. rewrite !prefix_cons.
        by repeat (destruct (ascii_dec _ _); try done).
      - change (String c (String c2 (String c3 name) +:+ " (ID: " +:+ tail))
          with (String c (String c2 (String c3 name)) +:+ " " +:+ "(ID: " +:+ tail).
        rewrite <- string_app_assoc, prefix_app_long; [exact Hhere|].
        rewrite string_app_length. cbn [String.length]. lia. }
    rewrite Hpre, (IH _ Hlater). by rewrite !string_app_assoc.
Qed.

Lemma py_split_patient_name (p : Patient.t) :
  occurs_in "ID: " (Patient.name p +:+ " ") = false →
  py_split (patient_name p) "ID: "
    = [Patient.name p +:+ " ("; py_str (Patient.id p) +:+ ")"].
Proof.
  intros Hocc. unfold py_split, patient_name.
  rewrite (split_go_name _ _ "" Hocc). simpl. do 2 f_equal.
  rewrite <- (string_app_nil_r (py_str (Patient.id p) +:+ ")")).
  rewrite split_go_other, split_go_end; [by rewrite string_app_nil_r|].
  apply chars_differ_app; [apply py_str_no_I|done].
Qed.

Lemma py_split_digits (n : Z) (more : string) :
  py_split (py_str n +:+ ")" +:+ more) ")" !! 0%nat = Some (py_str n).
Proof.
  unfold py_split. rewrite split_go_other by apply py_str_no_paren.
  by rewrite (split_go_sep ")" "").
Qed.

Lemma decimal_int_str (n : Z) : decimal_int (py_str n) = Some n.
Proof.
  unfold decimal_int, py_str.
  rewrite DecimalString.NilZero.isi.
  - simpl. by rewrite DecimalZ.of_to.
  - destruct n; simpl; try done.
    intros [= Hnil]. by apply DecimalPos.Unsigned.to_uint_nonnil in Hnil.
  - destruct n; simpl; try done.
    intros [= Hnil]. by apply DecimalPos.Unsigned.to_uint_nonnil in Hnil.
Qed.

(** Reading plain decimals is one [int] that reads back what [str] writes. *)
Definition decimal_IntOfStr : IntOfStr := {|
  py_int := decimal_int;
  py_int_str := decimal_int_str
|}.

Lemma selected_patient_id_patient_name (I : IntOfStr) (p : Patient.t) :
  occurs_in "ID: " (Patient.name p +:+ " ") = false →
  selected_patient_id (patient_name p) = inr (Patient.id p).
Proof.
  intros Hocc. unfold selected_patient_id.
  rewrite (py_split_patient_name p Hocc). simpl.
  pose proof (py_split_digits (Patient.id p) "") as Hdigits.
  simpl in Hdigits. rewrite Hdigits. by rewrite py_int_str.
Qed.

Lemma patient_name_truthy (p : Patient.t) : truthy (patient_name p) = true.
Proof. unfold patient_name. by destruct (Patient.name p). Qed.

(** In a list whose ids count up from 1, looking up a member's id finds
    that member. *)
Lemma next_with_id_member (patients : list Patient.t) (p : Patient.t) :
  ids_count_up patients → p ∈ patients →
  next_with_id patients (Patient.id p) = Some p.
Proof.
  intros Hids Hin. apply list_elem_of_lookup in Hin as [i Hi].
  pose proof (lookup_lt_Some _ _ _ Hi) as Hlt.
  assert (Hid : (Patient.id <$> patients) !! i = Some (Patient.id p))
    by (by rewrite list_lookup_fmap, Hi).
  unfold ids_count_up in Hids.
  rewrite Hids, list_lookup_fmap, lookup_seq_lt in Hid by done.
  simpl in Hid. injection Hid as Hid.
  rewrite (next_with_id_counting patients 1 _ Hids).
  rewrite bool_decide_eq_true_2 by lia.
  by replace (Z.to_nat (Patient.id p) - 1)%nat with i by lia.
Qed.

(** X10.  Where the text [ID: ] does not occur in the patient's name
    followed by a blank, the id read out of the patient's label is the
    patient's id. *)
Theorem selected_patient_id_of_label (I : IntOfStr) (p : Patient.t) :
  occurs_in "ID: " (Patient.name p +:+ " ") = false →
  selected_patient_id (patient_name p) = inr (Patient.id p).
Proof. apply selected_patient_id_patient_name. Qed.

Lemma selected_patient_id_of_label_witness :
  selected_patient_id (H := decimal_IntOfStr)
    (patient_name (Patient.mk 12 "Ian D: Idle" 30 "Male" 170 70 (2422 # 100)
                     739000 "Minor" "" 1 false [] "" "" "" 0))
    = inr 12.
Proof.
  apply (selected_patient_id_of_label decimal_IntOfStr
           (Patient.mk 12 "Ian D: Idle" 30 "Male" 170 70 (2422 # 100)
              739000 "Minor" "" 1 false [] "" "" "" 0)).
  reflexivity.
Defined.




(** X12.  In a session built by registration from the empty one, choosing
    the label of a registered patient whose name, followed by a blank,
    does not contain [ID: ] assesses that very patient: no exception is
    raised on the way to the assessment, and no other patient is taken. *)
Theorem risk_assessment_of_label (I : IntOfStr) (round_bmi : Z → Z → Q)
    (runs : list (Form.t * Z)) (p : Patient.t) :
  let session := register_all round_bmi initial_patients runs in
  p ∈ session →
  occurs_in "ID: " (Patient.name p +:+ " ") = false →
  risk_assessment session (patient_name p) = patient_page (assess p).
Proof.
  intros session Hin Hocc.
  assert (Hids : ids_count_up session) by (by apply register_all_ids).
  unfold risk_assessment.
  destruct session as [|q session'] eqn:E; [by apply elem_of_nil in Hin|].
  rewrite patient_name_truthy, (selected_patient_id_patient_name I p Hocc).
  by rewrite (next_with_id_member _ p Hids Hin).
Qed.

Lemma risk_assessment_of_label_witness :
  ∃ bob, ada_then_bob !! 1%nat = Some bob ∧
         risk_assessment (H := decimal_IntOfStr) ada_then_bob "Bob (ID: 2)"
           = patient_page (assess bob).
Proof.
  destruct (ada_then_bob !! 1%nat) as [bob|] eqn:E; [|by vm_compute in E].
  exists bob. split; [done|].
  assert (Hbob : patient_name bob = "Bob (ID: 2)").
  { vm_compute in E. by injection E as <-. }
  rewrite <- Hbob.
  apply (risk_assessment_of_label decimal_IntOfStr exact_bmi
           [(form_of_ada, 0); (form_of_bob, 1)] bob).
  - apply list_elem_of_lookup. by exists 1%nat.
  - vm_compute in E. by injection E as <-.
Defined.




(** * Properties of the dashboard *)

(** The category the pages compute for a patient. *)
Definition category_of (patient : Patient.t) : string :=
  (get_risk_category (score_of patient)).1.

Lemma with_risk_columns_cons p patients :
  with_risk_columns (p :: patients)
    = Row.mk p (score_of p) (category_of p) :: with_risk_columns patients.
Proof. reflexivity. Qed.

Lemma with_risk_columns_length patients :
  length (with_risk_columns patients) = length patients.
Proof. unfold with_risk_columns. by rewrite length_fmap. Qed.

(** Counting rows by a property of their category is counting patients. *)
Lemma count_rows_by_category (P : string → Prop) `{∀ c, Decision (P c)}
    (patients : list Patient.t) :
  length (filter (λ row, P (Row.risk_category row)) (with_risk_columns patients))
    = length (filter (λ p, P (category_of p)) patients).
Proof.
  induction patients as [|p patients IH]; [done|].
  rewrite with_risk_columns_cons, !filter_cons. simpl.
  case_decide; simpl; by rewrite IH.
Qed.

Lemma value_counts_lookup (values : list string) (v : string) :
  value_counts values !! v =
    match length (filter (λ x, x = v) values) with
    | O => None
    | S n => Some (S n)
    end.
Proof.
  induction values as [|x values IH]; [done|].
  simpl. rewrite lookup_insert, filter_cons.
  case_decide as Hx; simpl.
  - subst x. rewrite IH. by destruct (length _).
  - by rewrite IH.
Qed.

Lemma category_of_cases (p : Patient.t) :
  (category_of p = "Low" ∧ score_of p ≤ 8) ∨
  (category_of p = "Moderate" ∧ 9 ≤ score_of p ≤ 15) ∨
  (category_of p = "High" ∧ 16 ≤ score_of p ≤ 22) ∨
  (category_of p = "Critical" ∧ 23 ≤ score_of p).
Proof.
  unfold category_of, get_risk_category.
  destruct (Z.leb_spec (score_of p) 8), (Z.leb_spec (score_of p) 15),
    (Z.leb_spec (score_of p) 22); simpl; try lia; naive_solver lia.
Qed.

Lemma dashboard_nonempty (patients : list Patient.t) :
  patients ≠ [] →
  dashboard patients =
    let df := with_risk_columns patients in
    dashboard_shown {|
      Dashboard.total_patients := Z.of_nat (length df);
      Dashboard.high_risk :=
        Z.of_nat (length (filter (λ row, Row.risk_category row ∈ ["High"; "Critical"]) df));
      Dashboard.emergency_count :=
        foldr (λ row total,
                 (if Patient.emergency (Row.patient row) then 1 else 0) + total)
          0 df;
      Dashboard.risk_counts := value_counts (Row.risk_category <$> df)
    |}.
Proof. by destruct patients. Qed.

(** X14.  On a session with at least one patient the dashboard shows its
    figures: the total is the number of patients, the high-risk figure is
    the number of patients whose score is above 15, the emergency figure
    is the number of patients marked as emergency, and neither exceeds the
    total. *)
Theorem dashboard_figures (patients : list Patient.t) :
  patients ≠ [] →
  ∃ figures,
    dashboard patients = dashboard_shown figures ∧
    Dashboard.total_patients figures = Z.of_nat (length patients) ∧
    Dashboard.high_risk figures
      = Z.of_nat (length (filter (λ p, 15 < score_of p) patients)) ∧
    Dashboard.emergency_count figures
      = Z.of_nat (length (filter (λ p, Patient.emergency p = true) patients)) ∧
    0 ≤ Dashboard.high_risk figures ≤ Dashboard.total_patients figures ∧
    0 ≤ Dashboard.emergency_count figures ≤ Dashboard.total_patients figures.
Proof.
  intros Hne. rewrite (dashboard_nonempty patients Hne). clear Hne.
  eexists. split; [reflexivity|]. simpl.
  assert (Hhigh :
    length (filter (λ row, Row.risk_category row ∈ ["High"; "Critical"])
              (with_risk_columns patients))
    = length (filter (λ p, 15 < score_of p) patients)).
  { pose proof (count_rows_by_category (λ c, c ∈ ["High"; "Critical"]) patients)
      as Hrows.
    cbv beta in Hrows. rewrite Hrows. clear Hrows.
    induction patients as [|p ps IH]; [done|].
    rewrite !filter_cons.
    destruct (category_of_cases p) as [[Hc ?]|[[Hc ?]|[[Hc ?]|[Hc ?]]]];
      rewrite Hc; repeat case_decide; simpl; rewrite ?IH; try done; try lia;
      exfalso; set_solver. }
  assert (Hemerg :
    foldr (λ row total,
             (if Patient.emergency (Row.patient row) then 1 else 0) + total)
      0 (with_risk_columns patients)
    = Z.of_nat (length (filter (λ p, Patient.emergency p = true) patients))).
  { clear. induction patients as [|p ps IH]; [done|].
    rewrite with_risk_columns_cons, filter_cons. simpl. rewrite IH.
    destruct (Patient.emergency p); case_decide; try done; simpl; lia. }
  rewrite with_risk_columns_length, Hhigh, Hemerg.
  pose proof (length_filter (λ p, 15 < score_of p) patients).
  pose proof (length_filter (λ p, Patient.emergency p = true) patients).
  repeat split; lia.
Qed.

Lemma dashboard_figures_witness :
  ∃ figures,
    dashboard ada_then_bob = dashboard_shown figures ∧
    Dashboard.total_patients figures = 2.
Proof.
  destruct (dashboard_figures ada_then_bob) as (figures & Hd & Htotal & _).
  - by vm_compute.
  - exists figures. split; [exact Hd|]. rewrite Htotal. by vm_compute.
Defined.

(** X15.  The data of the pie chart: a category is listed exactly when
    some patient falls in it, with the number of those patients; only Low,
    Moderate, High and Critical are ever listed; the four counts add up to
    the number of patients, and the counts of High and Critical add up to
    the high-risk figure. *)
Theorem dashboard_risk_counts (p0 : Patient.t) (rest : list Patient.t) :
  ∃ figures,
    dashboard (p0 :: rest) = dashboard_shown figures ∧
    let count c := default 0%nat (Dashboard.risk_counts figures !! c) in
    (∀ c, count c = length (filter (λ p, category_of p = c) (p0 :: rest))) ∧
    (∀ c, Dashboard.risk_counts figures !! c = None ↔ count c = 0%nat) ∧
    (∀ c, is_Some (Dashboard.risk_counts figures !! c) →
          c ∈ ["Low"; "Moderate"; "High"; "Critical"]) ∧
    Z.of_nat (count "Low" + count "Moderate" + count "High" + count "Critical")
      = Dashboard.total_patients figures ∧
    Z.of_nat (count "High" + count "Critical") = Dashboard.high_risk figures.
Proof.
  assert (Hne : p0 :: rest ≠ []) by done.
  rewrite (dashboard_nonempty _ Hne). clear Hne.
  generalize (p0 :: rest). intros patients.
  eexists. split; [reflexivity|]. cbv zeta.
  cbn [Dashboard.risk_counts Dashboard.total_patients Dashboard.high_risk].
  assert (Hcount : ∀ c,
    default 0%nat (value_counts (Row.risk_category <$> with_risk_columns patients) !! c)
    = length (filter (λ p, category_of p = c) patients)).
  { intros c. rewrite value_counts_lookup.
    assert (Hlen : length (filter (λ x, x = c)
                             (Row.risk_category <$> with_risk_columns patients))
                   = length (filter (λ p, category_of p = c) patients)).
    { clear. induction patients as [|p ps IH]; [done|].
      rewrite with_risk_columns_cons, fmap_cons, !filter_cons. simpl.
      case_decide; simpl; by rewrite IH. }
    rewrite Hlen.
    generalize (length (filter (λ p, category_of p = c) patients)).
    by intros [|n]. }
  split; [exact Hcount|]. split; [|split; [|split]].
  - intros c.
    pose proof (value_counts_lookup
                  (Row.risk_category <$> with_risk_columns patients) c) as Hl.
    revert Hl.
    generalize (length (filter (λ x, x = c)
                          (Row.risk_category <$> with_risk_columns patients))).
    intros [|m] ->; simpl; split; done.
  - intros c [n Hn]. rewrite value_counts_lookup in Hn.
    destruct (filter (λ x, x = c) _) as [|x xs] eqn:Ef; [done|].
    assert (Hx : x ∈ filter (λ x, x = c)
                   (Row.risk_category <$> with_risk_columns patients))
      by (rewrite Ef; apply list_elem_of_here).
    apply list_elem_of_filter in Hx as [-> Hx].
    apply list_elem_of_fmap in Hx as (row & -> & Hrow).
    unfold with_risk_columns in Hrow.
    apply list_elem_of_fmap in Hrow as (p & -> & _). simpl.
    destruct (category_of_cases p) as [[Hc ?]|[[Hc ?]|[[Hc ?]|[Hc ?]]]];
      unfold category_of in Hc; rewrite Hc; set_solver.
  - rewrite !Hcount, with_risk_columns_length. f_equal. clear.
    induction patients as [|p ps IH]; [done|].
    rewrite !filter_cons.
    destruct (category_of_cases p) as [[Hc ?]|[[Hc ?]|[[Hc ?]|[Hc ?]]]];
      rewrite Hc; repeat case_decide; try done; simpl; lia.
  - pose proof (count_rows_by_category (λ c, c ∈ ["High"; "Critical"]) patients)
      as Hrows.
    cbv beta in Hrows. rewrite !Hcount, Hrows.
    f_equal. clear.
    induction patients as [|p ps IH]; [done|].
    rewrite !filter_cons.
    destruct (category_of_cases p) as [[Hc ?]|[[Hc ?]|[[Hc ?]|[Hc ?]]]];
      rewrite Hc; repeat case_decide; try done; simpl; rewrite <- ?IH;
      try lia; exfalso; set_solver.
Qed.


(** * Further properties of the records page *)

Lemma unique_from (values : list string) : ∀ seen v,
  v ∈ foldl (λ seen v, if decide (v ∈ seen) then seen else seen ++ [v]) seen values
  ↔ v ∈ seen ∨ v ∈ values.
Proof.
  induction values as [|x values IH]; intros seen v; simpl.
  - rewrite elem_of_nil. naive_solver.
  - rewrite IH, elem_of_cons. case_decide.
    + naive_solver.
    + rewrite elem_of_app, list_elem_of_singleton. naive_solver.
Qed.

Lemma elem_of_unique (values : list string) (v : string) :
  v ∈ unique values ↔ v ∈ values.
Proof. unfold unique. rewrite unique_from, elem_of_nil. naive_solver. Qed.

Lemma NoDup_unique_from (values : list string) : ∀ seen,
  NoDup seen →
  NoDup (foldl (λ seen v, if decide (v ∈ seen) then seen else seen ++ [v])
           seen values).
Proof.
  induction values as [|x values IH]; intros seen Hnd; simpl; [done|].
  apply IH. case_decide; [done|].
  apply NoDup_app. split; [done|]. split; [|apply NoDup_singleton].
  intros y Hy Hyx. apply list_elem_of_singleton in Hyx. by subst.
Qed.

Lemma filter_all {A} (P : A → Prop) `{∀ x, Decision (P x)} (l : list A) :
  (∀ x, x ∈ l → P x) → filter P l = l.
Proof.
  induction l as [|x l IH]; intros Hall; [done|].
  rewrite filter_cons, decide_True by (apply Hall; left).
  f_equal. apply IH. intros y Hy. apply Hall. by right.
Qed.

(** In a list whose ids count up from 1, a patient is known by the id. *)
Lemma id_determines_patient (patients : list Patient.t) (p q : Patient.t) :
  ids_count_up patients → p ∈ patients → q ∈ patients →
  Patient.id p = Patient.id q → p = q.
Proof.
  intros Hids Hp Hq Hid.
  pose proof (next_with_id_member patients p Hids Hp) as Hfp.
  pose proof (next_with_id_member patients q Hids Hq) as Hfq.
  rewrite Hid, Hfq in Hfp. by injection Hfp.
Qed.

Lemma elem_of_with_risk_columns (patients : list Patient.t) (row : Row.t) :
  row ∈ with_risk_columns patients ↔
  Row.patient row ∈ patients ∧
  row = Row.mk (Row.patient row) (score_of (Row.patient row))
          (category_of (Row.patient row)).
Proof.
  unfold with_risk_columns. rewrite list_elem_of_fmap. split.
  - intros (p & -> & Hp). by split.
  - intros [Hp Hrow]. exists (Row.patient row). by split.
Qed.

(** X16.  With the selections the filter boxes start with, the records
    page shows every patient of the session exactly once, whatever the
    sort key; and those starting selections list each category and each
    surgery type once. *)
Theorem default_filters_show_all (S : SortValues) (patients : list Patient.t)
    (sort_by : SortBy) :
  shown (patient_records patients (default_risk_filter patients)
           (default_surgery_filter patients) sort_by)
    ≡ₚ with_risk_columns patients ∧
  Row.patient <$> shown (patient_records patients (default_risk_filter patients)
                           (default_surgery_filter patients) sort_by)
    ≡ₚ patients ∧
  NoDup (default_risk_filter patients) ∧
  NoDup (default_surgery_filter patients).
Proof.
  assert (Hall : shown (patient_records patients (default_risk_filter patients)
                          (default_surgery_filter patients) sort_by)
                 ≡ₚ with_risk_columns patients).
  { rewrite shown_records_Permutation, filter_all; [done|].
    intros row Hrow. unfold selected, default_risk_filter, default_surgery_filter.
    rewrite !elem_of_unique.
    split; apply list_elem_of_fmap; by exists row. }
  split; [exact Hall|]. split; [|split].
  - rewrite Hall. unfold with_risk_columns.
    rewrite <- list_fmap_compose. by rewrite list_fmap_id.
  - apply NoDup_unique_from, NoDup_nil_2.
  - apply NoDup_unique_from, NoDup_nil_2.
Qed.

(** X17.  The filters only narrow and the sort key only orders: the page
    never shows more rows than there are patients, a row shown under
    smaller filter selections is shown under larger ones, and two sort
    keys show the same rows, each as often. *)
Theorem filters_narrow_sort_orders (S : SortValues) (patients : list Patient.t)
    (risk_filter risk_filter' surgery_filter surgery_filter' : list string)
    (sort_by sort_by' : SortBy) :
  (length (shown (patient_records patients risk_filter surgery_filter sort_by))
     ≤ length patients)%nat ∧
  shown (patient_records patients risk_filter surgery_filter sort_by)
    ≡ₚ shown (patient_records patients risk_filter surgery_filter sort_by') ∧
  (risk_filter ⊆ risk_filter' → surgery_filter ⊆ surgery_filter' →
   ∀ row, row ∈ shown (patient_records patients risk_filter surgery_filter sort_by) →
          row ∈ shown (patient_records patients risk_filter' surgery_filter' sort_by)).
Proof.
  split; [|split].
  - rewrite shown_records_Permutation, <- with_risk_columns_length.
    apply length_filter.
  - by rewrite !shown_records_Permutation.
  - intros Hrisk Hsurgery row.
    rewrite !shown_records_Permutation, !list_elem_of_filter. unfold selected.
    intros [[Hcat Hty] Hrow]. auto.
Qed.

Lemma filters_narrow_sort_orders_witness :
  Forall (λ row, row ∈ shown (patient_records (H := stable_SortValues)
                          ada_then_bob ["Low"; "High"] ["Minor"; "Major"] by_name))
    (shown (patient_records (H := stable_SortValues)
              ada_then_bob ["Low"] ["Minor"] by_name)).
Proof.
  apply Forall_forall.
  apply (filters_narrow_sort_orders stable_SortValues ada_then_bob
           ["Low"] ["Low"; "High"] ["Minor"] ["Minor"; "Major"] by_name by_name).
  - intros c Hc. apply list_elem_of_singleton in Hc as ->. left.
  - intros c Hc. apply list_elem_of_singleton in Hc as ->. left.
Defined.

(** X18.  In a session built by registration from the empty one, whatever
    the filters and the sort key, choosing in the detailed view the id of a
    row of the table shows a row of the table with that id, the only one;
    the lookup does not raise, and the truth test on the id hides no
    patient, ids starting at 1. *)
Theorem detailed_view_of_shown_id (S : SortValues) (round_bmi : Z → Z → Q)
    (runs : list (Form.t * Z)) (risk_filter surgery_filter : list string)
    (sort_by : SortBy) (selected_id : Z) :
  let session := register_all round_bmi initial_patients runs in
  let filtered_df :=
    shown (patient_records session risk_filter surgery_filter sort_by) in
  selected_id ∈ (λ row, Patient.id (Row.patient row)) <$> filtered_df →
  ∃ row,
    detailed_view filtered_df (Some selected_id) = detail_of row ∧
    row ∈ filtered_df ∧
    Patient.id (Row.patient row) = selected_id ∧
    session !! Z.to_nat (selected_id - 1) = Some (Row.patient row) ∧
    ∀ row', row' ∈ filtered_df →
            Patient.id (Row.patient row') = selected_id → row' = row.
Proof.
  intros session filtered_df Hsel.
  assert (Hids : ids_count_up session) by (by apply register_all_ids).
  assert (Hsub : ∀ row, row ∈ filtered_df → row ∈ with_risk_columns session).
  { intros row. unfold filtered_df.
    rewrite shown_records_Permutation, list_elem_of_filter. by intros [_ ?]. }
  assert (Huniq : ∀ r1 r2, r1 ∈ filtered_df → r2 ∈ filtered_df →
            Patient.id (Row.patient r1) = Patient.id (Row.patient r2) → r1 = r2).
  { intros r1 r2 H1 H2 Hid.
    apply Hsub, elem_of_with_risk_columns in H1 as [Hp1 Hr1].
    apply Hsub, elem_of_with_risk_columns in H2 as [Hp2 Hr2].
    rewrite Hr1, Hr2.
    by rewrite (id_determines_patient session _ _ Hids Hp1 Hp2 Hid). }
  apply list_elem_of_fmap in Hsel as (row0 & -> & Hrow0).
  set (k := Patient.id (Row.patient row0)).
  assert (Hfound : row0 ∈ filter (λ row, Patient.id (Row.patient row) = k)
                          filtered_df)
    by (by apply list_elem_of_filter).
  pose proof (Hsub _ Hrow0) as Hin0.
  apply elem_of_with_risk_columns in Hin0 as [Hp0 _].
  pose proof (next_with_id_member session _ Hids Hp0) as Hnext.
  rewrite (next_with_id_counting session 1 _ Hids) in Hnext.
  assert (Hk : 1 ≤ k).
  { destruct (bool_decide (Z.of_nat 1 ≤ Patient.id (Row.patient row0))) eqn:Eb;
      [|done]. apply bool_decide_eq_true in Eb. unfold k. lia. }
  rewrite bool_decide_eq_true_2 in Hnext by (unfold k in Hk; lia).
  unfold detailed_view. fold k.
  destruct (Z.eqb_spec k 0) as [Hz|_]; [lia|].
  destruct (filter (λ row, Patient.id (Row.patient row) = k) filtered_df)
    as [|row others] eqn:Ef; [by apply elem_of_nil in Hfound|].
  assert (Hrow : row ∈ filter (λ row, Patient.id (Row.patient row) = k) filtered_df)
    by (rewrite Ef; left).
  apply list_elem_of_filter in Hrow as [Hidrow Hrow].
  exists row. split; [done|]. split; [done|]. split; [done|]. split.
  - rewrite (Huniq row row0 Hrow Hrow0 Hidrow).
    by replace (Z.to_nat (k - 1)) with (Z.to_nat k - 1)%nat by lia.
  - intros row' Hrow' Hid'. apply Huniq; [done..|]. by rewrite Hid', Hidrow.
Qed.

Lemma detailed_view_of_shown_id_witness :
  ∃ row,
    detailed_view
      (shown (patient_records (H := stable_SortValues)
                ada_then_bob ["Low"] ["Minor"] by_name)) (Some 2)
      = detail_of row ∧
    Patient.id (Row.patient row) = 2.
Proof.
  destruct (detailed_view_of_shown_id stable_SortValues exact_bmi
              [(form_of_ada, 0); (form_of_bob, 1)] ["Low"] ["Minor"] by_name 2)
    as (row & Hd & _ & Hid & _).
  - vm_compute. right. left.
  - exists row. by split.
Defined.

(** * Registration followed by lookup *)

Lemma next_with_id_Some (patients : list Patient.t) (k : Z) (q : Patient.t) :
  next_with_id patients k = Some q → q ∈ patients ∧ Patient.id q = k.
Proof.
  induction patients as [|p patients IH]; simpl; [done|].
  destruct (Z.eqb_spec (Patient.id p) k) as [Hk|Hk].
  - intros [= ->]. split; [left|done].
  - intros Hq. destruct (IH Hq). split; [by right|done].
Qed.

(** X19.  Registering a submitted form with a name in a session built by
    registration, and then looking up the id the success notice reports,
    finds a record that carries the form's entries unchanged, the body
    mass index computed from its weight and height, and the time of the
    registration; every lookup that succeeded before still finds the same
    patient. *)
Theorem registered_patient_is_found (round_bmi : Z → Z → Q)
    (runs : list (Form.t * Z)) (form : Form.t) (now : Z) :
  let session := register_all round_bmi initial_patients runs in
  let after := patient_registration round_bmi session form now in
  Form.submitted form = true → Form.name form ≠ "" →
  ∃ patient,
    after.2 = [success_registered (Form.name form) (Patient.id patient)] ∧
    next_with_id after.1 (Patient.id patient) = Some patient ∧
    patient =
      Patient.mk (Z.of_nat (length session) + 1) (Form.name form) (Form.age form)
        (Form.gender form) (Form.height form) (Form.weight form)
        (round_bmi (Form.weight form) (Form.height form))
        (Form.surgery_date form) (Form.surgery_type form) (Form.surgeon form)
        (Form.asa_class form) (Form.emergency form) (Form.comorbidities form)
        (Form.allergies form) (Form.medications form) (Form.notes form) now ∧
    ∀ k q, next_with_id session k = Some q → next_with_id after.1 k = Some q.
Proof.
  intros session after Hsub Hname.
  assert (Hids : ids_count_up session) by (by apply register_all_ids).
  assert (Hids' : ids_count_up after.1) by (by apply patient_registration_ids).
  set (patient :=
    Patient.mk (Z.of_nat (length session) + 1) (Form.name form) (Form.age form)
      (Form.gender form) (Form.height form) (Form.weight form)
      (round_bmi (Form.weight form) (Form.height form))
      (Form.surgery_date form) (Form.surgery_type form) (Form.surgeon form)
      (Form.asa_class form) (Form.emergency form) (Form.comorbidities form)
      (Form.allergies form) (Form.medications form) (Form.notes form) now).
  assert (Hafter : after = (session ++ [patient],
                            [success_registered (Form.name form) (Patient.id patient)])).
  { unfold after, patient_registration. rewrite Hsub.
    by destruct (Form.name form). }
  exists patient. rewrite Hafter in *. simpl in *.
  split; [done|]. split; [|split; [done|]].
  - apply (next_with_id_member (session ++ [patient]) patient); [done|].
    apply elem_of_app. right. left.
  - intros k q Hq. apply next_with_id_Some in Hq as [Hq <-].
    apply next_with_id_member; [done|]. apply elem_of_app. by left.
Qed.

Lemma registered_patient_is_found_witness :
  ∃ patient,
    (patient_registration exact_bmi ada_then_bob form_of_bob 5).2
      = [success_registered "Bob" (Patient.id patient)] ∧
    next_with_id (patient_registration exact_bmi ada_then_bob form_of_bob 5).1
      (Patient.id patient) = Some patient.
Proof.
  destruct (registered_patient_is_found exact_bmi
              [(form_of_ada, 0); (form_of_bob, 1)] form_of_bob 5)
    as (patient & Hnotice & Hfound & _); [reflexivity|discriminate|].
  exists patient. by split.
Defined.

(** X20.  For a patient whose surgery type is not one of the four, the
    assessment shows its figures, computed with 3 points for the surgery,
    and then stops at the breakdown with [KeyError]: no chart and no
    recommendation is produced. *)
Theorem assess_unknown_surgery_type (patient : Patient.t) :
  Patient.surgery_type patient ∉ ["Minor"; "Moderate"; "Major"; "Complex"] →
  assess patient =
    breakdown_raised
      (Metrics.mk (score_of patient) (get_risk_category (score_of patient)).1
         (get_risk_category (score_of patient)).2
         (mortality_risk (score_of patient)))
      (KeyError (Patient.surgery_type patient)) ∧
  score_of patient =
    calculate_risk_score (Patient.age patient) (Patient.bmi patient)
      (Patient.comorbidities patient) "Moderate" (Patient.asa_class patient).
Proof.
  intros Hout.
  pose proof (surgery_scores_lookup_outside _ Hout) as Hnone. split.
  - unfold assess, factors, dict_getitem. fold surgery_scores. rewrite Hnone.
    by destruct (get_risk_category (score_of patient)).
  - unfold score_of. rewrite !calculate_risk_score_sum, !surgery_contribution.
    unfold dict_get. rewrite Hnone. by rewrite surgery_scores_lookup.
Qed.

Lemma assess_unknown_surgery_type_witness :
  ∃ metrics,
    assess (Patient.mk 1 "Ada" 30 "Female" 170 70 (2422 # 100) 739000 "Cosmetic" ""
              1 false [] "" "" "" 0) = breakdown_raised metrics (KeyError "Cosmetic").
Proof.
  eexists.
  apply (assess_unknown_surgery_type
           (Patient.mk 1 "Ada" 30 "Female" 170 70 (2422 # 100) 739000 "Cosmetic" ""
              1 false [] "" "" "" 0)).
  compute_done.
Defined.
